(** * Forge Theory suite: the decay calculator and the caffeine tracker

    A shallow embedding of [src/core/ForgeCalculator.js] and of
    [src/domains/caffeine-forge-enhanced.js], and the properties of the
    specification stated and settled against it.

    Numbers.  A JavaScript number is modelled as an extended real: a finite
    real with exact arithmetic, the two infinities, or NaN.  Rounding,
    overflow to an infinity and the sign of zero are not modelled (zero is
    the positive zero).  Comparisons follow the language: every ordered
    comparison with NaN is false.  Reals are compared with the decision
    procedures of the real-number library, so a concrete call is evaluated
    by proof ([rdec] below) rather than by computation.

    Dates.  A [Date] is modelled by its time value: an integer count of
    milliseconds, or no value for an Invalid Date.

    Exceptions.  The code raises plain [Error] objects told apart by their
    message; the model tags each with the category the specification gives
    it and keeps the message.

    Coverage.  Every function of the two files is modelled but three:
    [poissonProbability], whose [Math.pow] takes an arbitrary exponent,
    and [generateTimeline] and [getRecommendations], which rest on the
    wall clock and on the printing of numbers.  Loops whose bound is a
    number of the language carry fuel. *)

From Stdlib Require Import Reals Lra Lia List String ZArith Bool.
Import ListNotations.

Open Scope R_scope.

(* ------------------------------------------------------------------ *)
(** ** JavaScript numbers *)

Module JS.

Inductive num : Type :=
| Fin (r : R)
| PInf
| NInf
| NaN.

Definition Rleb (x y : R) : bool := if Rle_dec x y then true else false.
Definition Rltb (x y : R) : bool := if Rlt_dec x y then true else false.
Definition Reqb (x y : R) : bool := if Req_dec_T x y then true else false.

(** [a < b] *)
Definition ltb (a b : num) : bool :=
  match a, b with
  | Fin x, Fin y => Rltb x y
  | Fin _, PInf => true
  | NInf, Fin _ => true
  | NInf, PInf => true
  | _, _ => false
  end.

(** [a <= b] *)
Definition leb (a b : num) : bool :=
  match a, b with
  | Fin x, Fin y => Rleb x y
  | Fin _, PInf => true
  | NInf, Fin _ => true
  | NInf, PInf => true
  | PInf, PInf => true
  | NInf, NInf => true
  | _, _ => false
  end.

(** [a >= b] and [a > b] *)
Definition geb (a b : num) : bool := leb b a.
Definition gtb (a b : num) : bool := ltb b a.

(** Unary minus. *)
Definition neg (a : num) : num :=
  match a with
  | Fin x => Fin (- x)
  | PInf => NInf
  | NInf => PInf
  | NaN => NaN
  end.

Definition add (a b : num) : num :=
  match a, b with
  | NaN, _ | _, NaN => NaN
  | Fin x, Fin y => Fin (x + y)
  | PInf, NInf | NInf, PInf => NaN
  | PInf, _ | _, PInf => PInf
  | NInf, _ | _, NInf => NInf
  end.

Definition sub (a b : num) : num := add a (neg b).

(** An infinity scaled by a finite factor: the sign follows the factor,
    and a zero factor gives NaN. *)
Definition scaleInf (positive : bool) (x : R) : num :=
  if Reqb x 0 then NaN
  else if Bool.eqb positive (Rltb 0 x) then PInf else NInf.

Definition mul (a b : num) : num :=
  match a, b with
  | NaN, _ | _, NaN => NaN
  | Fin x, Fin y => Fin (x * y)
  | Fin x, PInf | PInf, Fin x => scaleInf true x
  | Fin x, NInf | NInf, Fin x => scaleInf false x
  | PInf, PInf | NInf, NInf => PInf
  | PInf, NInf | NInf, PInf => NInf
  end.

Definition div (a b : num) : num :=
  match a, b with
  | NaN, _ | _, NaN => NaN
  | Fin x, Fin y =>
      if Reqb y 0
      then (if Reqb x 0 then NaN else if Rltb 0 x then PInf else NInf)
      else Fin (x / y)
  | Fin _, PInf | Fin _, NInf => Fin 0
  | PInf, Fin y => if Rleb 0 y then PInf else NInf
  | NInf, Fin y => if Rleb 0 y then NInf else PInf
  | _, _ => NaN
  end.

(** [Math.exp] *)
Definition exp (a : num) : num :=
  match a with
  | Fin x => Fin (Rtrigo_def.exp x)
  | PInf => PInf
  | NInf => Fin 0
  | NaN => NaN
  end.

(** [Math.log] *)
Definition log (a : num) : num :=
  match a with
  | Fin x => if Rltb 0 x then Fin (ln x)
             else if Reqb x 0 then NInf else NaN
  | PInf => PInf
  | NInf => NaN
  | NaN => NaN
  end.

(** [Math.min] of two arguments *)
Definition min (a b : num) : num :=
  match a, b with
  | NaN, _ | _, NaN => NaN
  | _, _ => if leb a b then a else b
  end.

(** [Math.LN2] *)
Definition LN2 : num := Fin (ln 2).

(** Truthiness of a number: zero and NaN are falsy. *)
Definition truthy (a : num) : bool :=
  match a with
  | Fin x => negb (Reqb x 0)
  | PInf | NInf => true
  | NaN => false
  end.

(** The order of the language as propositions: nothing is related to NaN. *)
Inductive Le : num -> num -> Prop :=
| Le_fin x y : x <= y -> Le (Fin x) (Fin y)
| Le_ninf b : b <> NaN -> Le NInf b
| Le_pinf a : a <> NaN -> Le a PInf.

Inductive Lt : num -> num -> Prop :=
| Lt_fin x y : x < y -> Lt (Fin x) (Fin y)
| Lt_ninf_fin y : Lt NInf (Fin y)
| Lt_fin_pinf x : Lt (Fin x) PInf
| Lt_ninf_pinf : Lt NInf PInf.

End JS.

Import JS.

(* ------------------------------------------------------------------ *)
(** ** Exceptions *)

Inductive exn : Type :=
| InvalidArgument (msg : string)
| UnknownSource (msg : string).

Inductive result (A : Type) : Type :=
| Ok (a : A)
| Throw (e : exn).

Arguments Ok {A} a.
Arguments Throw {A} e.

Definition bind {A B : Type} (m : result A) (k : A -> result B) : result B :=
  match m with
  | Ok a => k a
  | Throw e => Throw e
  end.

Notation "x <- m ;; k" := (bind m (fun x => k))
  (at level 61, m at next level, right associativity).

(* ------------------------------------------------------------------ *)
(** ** Dates *)

(** The time value of a [Date]; [None] is the Invalid Date. *)
Definition Date : Type := option Z.

(** [date.getTime()], also the number a [Date] converts to in arithmetic. *)
Definition getTime (d : Date) : num :=
  match d with
  | Some ms => Fin (IZR ms)
  | None => NaN
  end.

Definition truncate (r : R) : Z :=
  if Rleb 0 r then Int_part r else (- Int_part (- r))%Z.

(** [new Date(n)] for a number [n]: the time value is clipped. *)
Definition newDate (n : num) : Date :=
  match n with
  | Fin r => if Rleb (Rabs r) 8640000000000000 then Some (truncate r) else None
  | _ => None
  end.

(** A time argument: a [Date] object or a number of milliseconds. *)
Inductive timeArg : Type :=
| ADate (d : Date)
| ANumber (n : num).

(** [time instanceof Date ? time : new Date(time)] *)
Definition toDate (t : timeArg) : Date :=
  match t with
  | ADate d => d
  | ANumber n => newDate n
  end.

(* ------------------------------------------------------------------ *)
(** ** More of the language *)

(** [a === b] on numbers: NaN equals nothing. *)
Definition strictEq (a b : num) : bool :=
  match a, b with
  | Fin x, Fin y => Reqb x y
  | PInf, PInf => true
  | NInf, NInf => true
  | _, _ => false
  end.

(** [Math.pow(a, 2)] *)
Definition pow2 (a : num) : num := mul a a.

(** [o || d] for an optional number [o]; [None] is [null]. *)
Definition orDefault (o : option num) (d : num) : num :=
  match o with
  | Some n => if truthy n then n else d
  | None => d
  end.

(** A point [{x, y}]. *)
Module XY.
Record t : Type := mk { x : num; y : num }.
End XY.

(** A measurement [{time, value}]. *)
Module Sample.
Record t : Type := mk { time : num; value : num }.
End Sample.

(* ------------------------------------------------------------------ *)
(** ** ForgeCalculator *)

Module ForgeCalculator.

Definition calculate (initial rate time : num) : result num :=
  if ltb initial (Fin 0) then
    Throw (InvalidArgument "Initial value cannot be negative")
  else if ltb rate (Fin 0) then
    Throw (InvalidArgument "Rate constant cannot be negative")
  else if ltb time (Fin 0) then
    Throw (InvalidArgument "Time cannot be negative")
  else Ok (mul initial (exp (mul (neg rate) time))).

Definition rateToHalfLife (rate : num) : result num :=
  if leb rate (Fin 0) then
    Throw (InvalidArgument "Rate constant must be positive")
  else Ok (div LN2 rate).

Definition halfLifeToRate (halfLife : num) : result num :=
  if leb halfLife (Fin 0) then
    Throw (InvalidArgument "Half-life must be positive")
  else Ok (div LN2 halfLife).

Definition timeToReach (initial target rate : num) : result num :=
  if geb target initial then Ok (Fin 0)
  else if leb target (Fin 0) then Ok PInf
  else if leb rate (Fin 0) then
    Throw (InvalidArgument "Rate constant must be positive")
  else Ok (div (log (div initial target)) rate).

Record CurvePoint : Type := mkCurvePoint {
  time : num;
  value : num;
  percent : num;
  halfLives : num
}.

(** The body of the loop of [generateCurve] at index [i]. *)
Definition curvePoint (initial rate dt : num) (i : nat) : result CurvePoint :=
  let time := mul (Fin (INR i)) dt in
  value <- calculate initial rate time ;;
  let percent := mul (div value initial) (Fin 100) in
  hl <- rateToHalfLife rate ;;
  Ok (mkCurvePoint time value percent (div time hl)).

(** [for (let i = ...; i <= steps; i++)], with [todo] iterations left. *)
Fixpoint curveLoop (initial rate dt : num) (i todo : nat)
    (data : list CurvePoint) : result (list CurvePoint) :=
  match todo with
  | O => Ok data
  | S todo' =>
      p <- curvePoint initial rate dt i ;;
      curveLoop initial rate dt (S i) todo' (data ++ [p])
  end.

Definition generateCurve (initial rate duration : num) (steps : nat)
    : result (list CurvePoint) :=
  let dt := div duration (Fin (INR steps)) in
  curveLoop initial rate dt 0 (S steps) [].

Definition percentRemaining (rate time : num) : num :=
  mul (Fin 100) (exp (mul (neg rate) time)).

Definition percentOf (current initial : num) : num :=
  if strictEq initial (Fin 0) then Fin 0
  else mul (div current initial) (Fin 100).

Definition timeConstant (rate : num) : result num :=
  if leb rate (Fin 0) then
    Throw (InvalidArgument "Rate constant must be positive")
  else Ok (div (Fin 1) rate).

Definition amountAtPercent (initial percent : num) : num :=
  mul initial (div percent (Fin 100)).

Definition halfLivesElapsed (time halfLife : num) : result num :=
  if leb halfLife (Fin 0) then
    Throw (InvalidArgument "Half-life must be positive")
  else Ok (div time halfLife).

Definition logisticGrowth (initial capacity rate time : num) : result num :=
  if leb capacity (Fin 0) then
    Throw (InvalidArgument "Carrying capacity must be positive")
  else if leb initial (Fin 0) then
    Throw (InvalidArgument "Initial population must be positive")
  else
    let ratio := div (sub capacity initial) initial in
    Ok (div capacity (add (Fin 1) (mul ratio (exp (mul (neg rate) time))))).

Definition biExponential (A alpha B beta time : num) : num :=
  add (mul A (exp (mul (neg alpha) time)))
      (mul B (exp (mul (neg beta) time))).

Definition meanTimeToEvent (lambda : num) : result num :=
  if leb lambda (Fin 0) then
    Throw (InvalidArgument "Event rate must be positive")
  else Ok (div (Fin 1) lambda).



Definition compositeDecay (initial : num) (rates : list num) (time : num)
    : result num :=
  let totalRate := fold_left (fun sum rate => add sum rate) rates (Fin 0) in
  calculate initial totalRate time.

(** The loop of [calculateRSquared] over the two arrays, index by index. *)
Fixpoint squaresLoop (mean : num) (observed predicted : list XY.t)
    (ssTotal ssResidual : num) : num * num :=
  match observed, predicted with
  | o :: observed', p :: predicted' =>
      let obs := XY.y o in
      let pred := XY.y p in
      squaresLoop mean observed' predicted'
        (add ssTotal (pow2 (sub obs mean)))
        (add ssResidual (pow2 (sub obs pred)))
  | _, _ => (ssTotal, ssResidual)
  end.

Definition calculateRSquared (observed predicted : list XY.t) : result num :=
  if negb (Nat.eqb (List.length observed) (List.length predicted)) then
    Throw (InvalidArgument
             "Observed and predicted arrays must have same length")
  else
    let mean :=
      div (fold_left (fun sum point => add sum (XY.y point)) observed (Fin 0))
          (Fin (INR (List.length observed))) in
    let '(ssTotal, ssResidual) :=
      squaresLoop mean observed predicted (Fin 0) (Fin 0) in
    Ok (sub (Fin 1) (div ssResidual ssTotal)).



(** An entry [{time, value, percent}] of [batchCalculate]. *)
Module Batch.
Record t : Type := mk { time : num; value : num; percent : num }.
End Batch.

(** [times.map(...)]: the first failing call ends the whole map. *)
Fixpoint batchCalculate (initial rate : num) (times : list num)
    : result (list Batch.t) :=
  match times with
  | [] => Ok []
  | time :: rest =>
      value <- calculate initial rate time ;;
      let entry := Batch.mk time value (percentRemaining rate time) in
      entries <- batchCalculate initial rate rest ;;
      Ok (entry :: entries)
  end.


Record Interval : Type := mkInterval {
  lower : num;
  upper : num;
  confidence : num
}.

Definition rateConfidenceInterval (rate standardError confidence : num)
    : Interval :=
  let t := if strictEq confidence (Fin (95 / 100))
           then Fin (196 / 100) else Fin (2576 / 1000) in
  mkInterval (sub rate (mul t standardError))
             (add rate (mul t standardError))
             confidence.

End ForgeCalculator.

(* ------------------------------------------------------------------ *)
(** ** Property lookup on an object literal *)

(** What a property read can give here: nothing, a number, or an object
    (a function included), named by the property it was read from. *)
Inductive JSValue : Type :=
| VUndefined
| VNumber (n : num)
| VObject (name : string).

(** [!!v] *)
Definition toBoolean (v : JSValue) : bool :=
  match v with
  | VUndefined => false
  | VNumber n => truthy n
  | VObject _ => true
  end.

(** The number [v] converts to in a product.  A function or a plain
    object converts through its string form, which is not a numeral. *)
Definition toNumber (v : JSValue) : num :=
  match v with
  | VUndefined => NaN
  | VNumber n => n
  | VObject _ => NaN
  end.

(** The properties every object literal inherits from [Object.prototype]. *)
Definition ObjectPrototype : list string :=
  [ "constructor"; "hasOwnProperty"; "isPrototypeOf"; "propertyIsEnumerable";
    "toLocaleString"; "toString"; "valueOf"; "__proto__";
    "__defineGetter__"; "__defineSetter__";
    "__lookupGetter__"; "__lookupSetter__" ]%string.

Fixpoint assoc (key : string) (table : list (string * num)) : option num :=
  match table with
  | [] => None
  | (k, v) :: rest => if String.eqb key k then Some v else assoc key rest
  end.

(** [table[key]] for an object literal [table]: an own property first,
    then the prototype. *)
Definition getProperty (table : list (string * num)) (key : string) : JSValue :=
  match assoc key table with
  | Some n => VNumber n
  | None =>
      if existsb (String.eqb key) ObjectPrototype then VObject key
      else VUndefined
  end.

(* ------------------------------------------------------------------ *)
(** ** CaffeineForge *)

Module CaffeineForge.

(** [this.CONSTANTS] *)
Definition HALF_LIFE_TYPICAL : num := Fin 5.
Definition HALF_LIFE_MIN : num := Fin 2.
Definition HALF_LIFE_MAX : num := Fin 10.
Definition RATE_TYPICAL : num := Fin (1386 / 10000).
Definition RATE_FAST : num := Fin (3466 / 10000).
Definition RATE_SLOW : num := Fin (693 / 10000).
Definition VD_PER_KG : num := Fin (6 / 10).
Definition THRESHOLD_SLEEP : num := Fin 10.

Definition SOURCES : list (string * num) :=
  [ ("espresso", Fin 64); ("coffee", Fin 95); ("tea_black", Fin 47);
    ("tea_green", Fin 28); ("energy_drink", Fin 80); ("cola", Fin 34);
    ("dark_chocolate", Fin 12) ]%string.

Record DoseEvent : Type := mkDoseEvent {
  dose : num;
  time : Date;
  source : string;
  timestamp : Z
}.

(** [this.state].  The keys spread from the registry defaults are
    overwritten or unused by the operations below and are left out. *)
Record State : Type := mkState {
  bodyWeight : num;
  metabolismRate : string;
  caffeineHistory : list DoseEvent;
  currentLevel : num;
  rateConstant : num;
  halfLife : num
}.

(** The tracker object: [this.state] and [this.volumeDistribution]. *)
Record Forge : Type := mkForge {
  state : State;
  volumeDistribution : num
}.

(** A partial state: the argument of the constructor and of
    [updateConfig], and the [state] of a saved blob.  [None] is an absent
    key. *)
Record Config : Type := mkConfig {
  cfg_bodyWeight : option num;
  cfg_metabolismRate : option string;
  cfg_caffeineHistory : option (list DoseEvent);
  cfg_currentLevel : option num;
  cfg_rateConstant : option num;
  cfg_halfLife : option num
}.

Definition emptyConfig : Config := mkConfig None None None None None None.

Definition orElse {A : Type} (o : option A) (d : A) : A :=
  match o with
  | Some a => a
  | None => d
  end.

(** [Object.assign(state, config)], and [{...state, ...config}]. *)
Definition assign (s : State) (c : Config) : State :=
  mkState (orElse (cfg_bodyWeight c) (bodyWeight s))
          (orElse (cfg_metabolismRate c) (metabolismRate s))
          (orElse (cfg_caffeineHistory c) (caffeineHistory s))
          (orElse (cfg_currentLevel c) (currentLevel s))
          (orElse (cfg_rateConstant c) (rateConstant s))
          (orElse (cfg_halfLife c) (halfLife s)).

Definition setRate (s : State) (rate hl : num) : State :=
  mkState (bodyWeight s) (metabolismRate s) (caffeineHistory s)
          (currentLevel s) rate hl.

Definition setCurrentLevel (s : State) (level : num) : State :=
  mkState (bodyWeight s) (metabolismRate s) (caffeineHistory s)
          level (rateConstant s) (halfLife s).

Definition setHistory (s : State) (h : list DoseEvent) : State :=
  mkState (bodyWeight s) (metabolismRate s) h
          (currentLevel s) (rateConstant s) (halfLife s).

Definition updateRateConstant (f : Forge) : Forge :=
  let s := state f in
  if String.eqb (metabolismRate s) "fast" then
    mkForge (setRate s RATE_FAST HALF_LIFE_MIN) (volumeDistribution f)
  else if String.eqb (metabolismRate s) "slow" then
    mkForge (setRate s RATE_SLOW HALF_LIFE_MAX) (volumeDistribution f)
  else
    mkForge (setRate s RATE_TYPICAL HALF_LIFE_TYPICAL) (volumeDistribution f).

(** The state literal of the constructor before [userConfig] is spread
    over it; the derived fields are set right after. *)
Definition initialState : State :=
  mkState (Fin 70) "typical" [] (Fin 0) NaN NaN.

Definition constructor (userConfig : Config) : Forge :=
  let f := updateRateConstant (mkForge (assign initialState userConfig) NaN) in
  mkForge (state f) (mul (bodyWeight (state f)) VD_PER_KG).

(** [addDose(dose, time, source)]; [clock] is the reading of [Date.now()]. *)
Definition addDose (f : Forge) (dose : num) (time : timeArg) (source : string)
    (clock : Z) : result (DoseEvent * Forge) :=
  let event := mkDoseEvent dose (toDate time) source clock in
  Ok (event,
      mkForge (setHistory (state f) (caffeineHistory (state f) ++ [event]))
              (volumeDistribution f)).

Definition addBySource (f : Forge) (source : string) (servings : num)
    (time : timeArg) (clock : Z) : result (DoseEvent * Forge) :=
  let dosePerServing := getProperty SOURCES source in
  if negb (toBoolean dosePerServing) then
    Throw (UnknownSource ("Unknown caffeine source: " ++ source))
  else
    let totalDose := mul (toNumber dosePerServing) servings in
    addDose f totalDose time source clock.

Definition getBloodLevel (f : Forge) (dose hoursElapsed : num) : result num :=
  let initialConcentration := div dose (volumeDistribution f) in
  ForgeCalculator.calculate initialConcentration (rateConstant (state f))
                            hoursElapsed.

(** [(now - event.time) / (1000 * 60 * 60)] *)
Definition hoursBetween (now t : Date) : num :=
  div (sub (getTime now) (getTime t)) (Fin (1000 * 60 * 60)).

(** The loop of [getCurrentLevel] over the remaining events. *)
Fixpoint levelLoop (f : Forge) (now : Date) (events : list DoseEvent)
    (totalLevel : num) : result num :=
  match events with
  | [] => Ok totalLevel
  | event :: rest =>
      let hoursElapsed := hoursBetween now (time event) in
      if geb hoursElapsed (Fin 0) then
        let initialConcentration := div (dose event) (volumeDistribution f) in
        remaining <- ForgeCalculator.calculate initialConcentration
                       (rateConstant (state f)) hoursElapsed ;;
        levelLoop f now rest (add totalLevel remaining)
      else levelLoop f now rest totalLevel
  end.

Definition getCurrentLevel (f : Forge) (currentTime : timeArg)
    : result (num * Forge) :=
  let now := toDate currentTime in
  totalLevel <- levelLoop f now (caffeineHistory (state f)) (Fin 0) ;;
  Ok (totalLevel,
      mkForge (setCurrentLevel (state f) totalLevel) (volumeDistribution f)).

Record SleepInfo : Type := mkSleepInfo {
  hours : num;
  sleepTime : Date;
  canSleepNow : bool;
  sleep_currentLevel : num
}.

(** [sleepThreshold || this.CONSTANTS.THRESHOLD_SLEEP]; [None] is [null]. *)
Definition thresholdOrDefault (sleepThreshold : option num) : num :=
  match sleepThreshold with
  | Some n => if truthy n then n else THRESHOLD_SLEEP
  | None => THRESHOLD_SLEEP
  end.

Definition getTimeUntilSleep (f : Forge) (sleepThreshold : option num)
    (fromTime : Date) : result (SleepInfo * Forge) :=
  let threshold := thresholdOrDefault sleepThreshold in
  r <- getCurrentLevel f (ADate fromTime) ;;
  let '(currentLevel, f') := r in
  if leb currentLevel threshold then
    Ok (mkSleepInfo (Fin 0) fromTime true currentLevel, f')
  else
    hours <- ForgeCalculator.timeToReach currentLevel threshold
               (rateConstant (state f')) ;;
    let sleepTime :=
      newDate (add (getTime fromTime)
                   (mul (mul (mul hours (Fin 60)) (Fin 60)) (Fin 1000))) in
    Ok (mkSleepInfo hours sleepTime false currentLevel, f').

Record ScheduleEntry : Type := mkScheduleEntry {
  sched_time : num;
  sched_dose : num;
  reason : string
}.

(** The [while (currentTime < duration)] loop of [optimizeDosing].  [None]
    says the loop was still running when [fuel] iterations were done. *)
Fixpoint maintenance (fuel : nat) (f : Forge)
    (targetConcentration redoseThreshold maxDose redoseInterval duration : num)
    (currentTime : num) (schedule : list ScheduleEntry)
    : option (list ScheduleEntry) :=
  if ltb currentTime duration then
    match fuel with
    | O => None
    | S fuel' =>
        let boostDose :=
          min (mul (sub targetConcentration redoseThreshold)
                   (volumeDistribution f))
              maxDose in
        maintenance fuel' f targetConcentration redoseThreshold maxDose
          redoseInterval duration
          (add currentTime redoseInterval)
          (schedule ++ [mkScheduleEntry currentTime boostDose "Maintenance dose"])
    end
  else Some schedule.

Definition optimizeDosing (fuel : nat) (f : Forge)
    (targetLevel duration maxDose : num)
    : result (option (list ScheduleEntry)) :=
  let targetConcentration := targetLevel in
  let initialDose :=
    min (mul targetConcentration (volumeDistribution f)) maxDose in
  let schedule :=
    [mkScheduleEntry (Fin 0) initialDose "Initial dose to reach target"] in
  let redoseThreshold := mul targetConcentration (Fin (7 / 10)) in
  let initialConc := div initialDose (volumeDistribution f) in
  redoseInterval <- ForgeCalculator.timeToReach initialConc redoseThreshold
                      (rateConstant (state f)) ;;
  let currentTime := redoseInterval in
  Ok (maintenance fuel f targetConcentration redoseThreshold maxDose
        redoseInterval duration currentTime schedule).

Definition clearHistory (f : Forge) : Forge :=
  mkForge (setCurrentLevel (setHistory (state f) []) (Fin 0))
          (volumeDistribution f).

Definition truthyOpt (o : option num) : bool :=
  match o with
  | Some n => truthy n
  | None => false
  end.

(** Truthiness of an optional string: absent and empty are falsy. *)
Definition nonEmptyOpt (o : option string) : bool :=
  match o with
  | Some s => negb (String.eqb s "")
  | None => false
  end.

Definition updateConfig (f : Forge) (config : Config) : Forge :=
  let f1 := mkForge (assign (state f) config) (volumeDistribution f) in
  let f2 :=
    if truthyOpt (cfg_bodyWeight config) then
      mkForge (state f1) (mul (orElse (cfg_bodyWeight config) NaN) VD_PER_KG)
    else f1 in
  if nonEmptyOpt (cfg_metabolismRate config) then updateRateConstant f2
  else f2.

Record SavedState : Type := mkSavedState {
  version : string;
  saved_state : Config;
  saved_timestamp : Z
}.

(** The whole state as a partial state with every key present. *)
Definition snapshot (s : State) : Config :=
  mkConfig (Some (bodyWeight s)) (Some (metabolismRate s))
           (Some (caffeineHistory s)) (Some (currentLevel s))
           (Some (rateConstant s)) (Some (halfLife s)).

Definition exportState (f : Forge) (clock : Z) : SavedState :=
  mkSavedState "1.0" (snapshot (state f)) clock.

Definition importState (f : Forge) (savedState : SavedState) : Forge :=
  if String.eqb (version savedState) "1.0" then
    let f1 :=
      updateRateConstant
        (mkForge (assign (state f) (saved_state savedState))
                 (volumeDistribution f)) in
    mkForge (state f1) (mul (bodyWeight (state f1)) VD_PER_KG)
  else f.

Definition THRESHOLD_ALERT : num := Fin 50.
Definition THRESHOLD_JITTERY : num := Fin 150.
Definition THRESHOLD_BASELINE : num := Fin 1.

Definition getPercentOfPeak (f : Forge) (currentLevel : num) : num :=
  let typicalPeak := div (Fin 200) (volumeDistribution f) in
  min (Fin 100) (mul (div currentLevel typicalPeak) (Fin 100)).

(** The object [getPhysiologicalState] returns; its key [state] is
    [stateLabel] here. *)
Record PhysiologicalState : Type := mkPhysiologicalState {
  level : num;
  stateLabel : string;
  description : string;
  percentOfPeak : num
}.

Definition getPhysiologicalState (f : Forge) (time : timeArg)
    : result (PhysiologicalState * Forge) :=
  r <- getCurrentLevel f time ;;
  let '(level, f') := r in
  let '(state, description) :=
    if geb level THRESHOLD_JITTERY then
      ("jittery"%string,
       "High caffeine - anxiety, jitters, rapid heartbeat likely"%string)
    else if geb level THRESHOLD_ALERT then
      ("alert"%string,
       "Moderate caffeine - increased alertness and focus"%string)
    else if geb level THRESHOLD_SLEEP then
      ("mild"%string,
       "Low caffeine - mild stimulation, may affect sleep"%string)
    else if geb level THRESHOLD_BASELINE then
      ("minimal"%string, "Trace caffeine - negligible effects"%string)
    else ("baseline"%string, "No significant caffeine effects"%string) in
  Ok (mkPhysiologicalState level state description
        (getPercentOfPeak f' level), f').

Definition getStateFromLevel (totalLevel : num) : string :=
  if geb totalLevel THRESHOLD_JITTERY then "jittery"%string
  else if geb totalLevel THRESHOLD_ALERT then "alert"%string
  else if geb totalLevel THRESHOLD_SLEEP then "mild"%string
  else if geb totalLevel THRESHOLD_BASELINE then "minimal"%string
  else "baseline"%string.

(** A point [{time, level, percent, state}] of [generateDecayCurve]. *)
Module DecayPoint.
Record t : Type := mk {
  time : num;
  level : num;
  percent : num;
  state : string
}.
End DecayPoint.

(** The loop of [generateDecayCurve], with [todo] iterations left. *)
Fixpoint decayCurveLoop (f : Forge) (initialLevel dt : num) (i todo : nat)
    (curve : list DecayPoint.t) : result (list DecayPoint.t) :=
  match todo with
  | O => Ok curve
  | S todo' =>
      let time := mul (Fin (INR i)) dt in
      level <- ForgeCalculator.calculate initialLevel
                 (rateConstant (state f)) time ;;
      let percent := mul (div level initialLevel) (Fin 100) in
      let point :=
        DecayPoint.mk time level percent
          (getStateFromLevel (mul level (volumeDistribution f))) in
      decayCurveLoop f initialLevel dt (S i) todo' (curve ++ [point])
  end.

(** [generateDecayCurve(dose, duration, steps)].  [initialValue] stands
    for [this.state.initialValue], a key only the registry defaults or a
    caller's configuration can supply. *)
Definition generateDecayCurve (f : Forge) (initialValue : option num)
    (dose : option num) (duration : num) (steps : nat)
    : result (list DecayPoint.t) :=
  let initialDose := orDefault dose (orDefault initialValue (Fin 100)) in
  let initialLevel := div initialDose (volumeDistribution f) in
  let dt := div duration (Fin (INR steps)) in
  decayCurveLoop f initialLevel dt 0 (S steps) [].

(** A value stored in the [breakdown] object: a number, or the string
    that adding a number to a function or to a string gives. *)
Inductive BreakdownValue : Type :=
| BNumber (n : num)
| BString.

Fixpoint assocB (key : string) (o : list (string * BreakdownValue))
    : option BreakdownValue :=
  match o with
  | [] => None
  | (k, v) :: rest => if String.eqb key k then Some v else assocB key rest
  end.

(** [o[key] = v] on the own properties of [o], kept as an association
    list in the order of first assignment. *)
Fixpoint storeB (key : string) (v : BreakdownValue)
    (o : list (string * BreakdownValue)) : list (string * BreakdownValue) :=
  match o with
  | [] => [(key, v)]
  | (k, w) :: rest =>
      if String.eqb key k then (k, v) :: rest
      else (k, w) :: storeB key v rest
  end.

(** [(breakdown[source] || 0) + dose] *)
Definition bumped (breakdown : list (string * BreakdownValue))
    (source : string) (dose : num) : BreakdownValue :=
  match assocB source breakdown with
  | Some (BNumber n) => BNumber (add (if truthy n then n else Fin 0) dose)
  | Some BString => BString
  | None =>
      if existsb (String.eqb source) ObjectPrototype then BString
      else BNumber (add (Fin 0) dose)
  end.

(** [breakdown[source] = v]: a string assigned to [__proto__] is dropped,
    an inherited name otherwise becomes an own property. *)
Definition assignB (breakdown : list (string * BreakdownValue))
    (source : string) (v : BreakdownValue)
    : list (string * BreakdownValue) :=
  if String.eqb source "__proto__" then breakdown
  else storeB source v breakdown.

(** The loop of [getTodayTotal]. *)
Fixpoint todayLoop (today : Z) (events : list DoseEvent) (total : num)
    (breakdown : list (string * BreakdownValue))
    : num * list (string * BreakdownValue) :=
  match events with
  | [] => (total, breakdown)
  | event :: rest =>
      if geb (getTime (time event)) (Fin (IZR today)) then
        todayLoop today rest (add total (dose event))
          (assignB breakdown (source event)
             (bumped breakdown (source event) (dose event)))
      else todayLoop today rest total breakdown
  end.

Record TodayTotal : Type := mkTodayTotal {
  total : num;
  breakdown : list (string * BreakdownValue);
  safe : bool;
  excessive : bool
}.

(** [getTodayTotal()]; [today] is the reading of
    [new Date().setHours(0, 0, 0, 0)], the time value of local midnight. *)
Definition getTodayTotal (f : Forge) (today : Z) : TodayTotal :=
  let '(total, breakdown) :=
    todayLoop today (caffeineHistory (state f)) (Fin 0) [] in
  mkTodayTotal total breakdown (ltb total (Fin 400)) (gtb total (Fin 600)).

End CaffeineForge.

(* ------------------------------------------------------------------ *)
(** ** The specification's words, to compare the code with *)

Module Spec.

Import CaffeineForge.

(** [occurredAt <= queryTime] *)
Definition occurredBy (queryTime : Date) (e : DoseEvent) : bool :=
  leb (getTime (time e)) (getTime queryTime).

(** One event's independent decay: its own initial concentration over the
    hours elapsed since it occurred. *)
Definition contribution (f : Forge) (queryTime : Date) (e : DoseEvent)
    : result num :=
  ForgeCalculator.calculate (div (dose e) (volumeDistribution f))
    (rateConstant (state f)) (hoursBetween queryTime (time e)).

(** The sum of the contributions in log order, started from [acc]; the
    first contribution that fails is the failure of the sum. *)
Fixpoint sumFrom (acc : num) (cs : list (result num)) : result num :=
  match cs with
  | [] => Ok acc
  | c :: rest => x <- c ;; sumFrom (add acc x) rest
  end.

Definition superposition (f : Forge) (queryTime : Date) : result num :=
  sumFrom (Fin 0)
    (map (contribution f queryTime)
         (filter (occurredBy queryTime) (caffeineHistory (state f)))).

(** The profile's rate constant, as the constructor derives it. *)
Definition rateFor (profile : string) : num :=
  if String.eqb profile "fast" then RATE_FAST
  else if String.eqb profile "slow" then RATE_SLOW
  else RATE_TYPICAL.

(** The derived fields agree with the profile and the body weight. *)
Definition consistent (f : Forge) : Prop :=
  rateConstant (state f) = rateFor (metabolismRate (state f)) /\
  volumeDistribution f = mul (bodyWeight (state f)) VD_PER_KG.

Definition withHistory (f : Forge) (h : list DoseEvent) : Forge :=
  mkForge (setHistory (state f) h) (volumeDistribution f).

(** The curve point at index [i] for real arguments: time [i * dt] and the
    decayed value there. *)
Definition samplePoint (initial rate dt : R) (i : nat)
    : ForgeCalculator.CurvePoint :=
  let t := INR i * dt in
  let v := initial * Rtrigo_def.exp (- rate * t) in
  ForgeCalculator.mkCurvePoint
    (Fin t) (Fin v) (mul (div (Fin v) (Fin initial)) (Fin 100))
    (Fin (t / (ln 2 / rate))).

(** Sums over real data, for statements about the regressions. *)
Definition sumOver {A : Type} (g : A -> R) (l : list A) : R :=
  fold_left (fun acc a => acc + g a) l 0.

(** The squared deviation of [y] from [m], and the squared error of a
    pair (observed, predicted). *)
Definition sqdev (m : R) (y : R) : R := (y - m) * (y - m).
Definition sqerr (q : R * R) : R := (fst q - snd q) * (fst q - snd q).

(** Points with the given real ordinates and any abscissas. *)
Definition ordinates (points : list XY.t) (ys : list R) : Prop :=
  map XY.y points = map Fin ys.


(** The number [getCurrentLevel] returns. *)
Definition levelAt (f : Forge) (t : timeArg) : result num :=
  r <- getCurrentLevel f t ;; Ok (fst r).

(** An event with a real amount that is not negative, taken at a valid
    time. *)
Definition wellFormed (e : DoseEvent) (amount : R) (ms : Z) : Prop :=
  dose e = Fin amount /\ 0 <= amount /\ time e = Some ms.

(** The real amount of an event, and its time in milliseconds. *)
Definition amountOf (e : DoseEvent) : R :=
  match dose e with
  | Fin d => d
  | _ => 0
  end.

Definition msOf (e : DoseEvent) : Z :=
  match time e with
  | Some ms => ms
  | None => 0%Z
  end.

(** The hours from an event to the time [t]. *)
Definition hoursSince (t : Z) (e : DoseEvent) : R :=
  (IZR t - IZR (msOf e)) / (1000 * 60 * 60).

(** The number a breakdown entry holds, and the sum of the entries. *)
Definition entryAmount (kv : string * BreakdownValue) : R :=
  match snd kv with
  | BNumber (Fin x) => x
  | _ => 0
  end.

Definition breakdownSum (b : list (string * BreakdownValue)) : R :=
  sumOver entryAmount b.

(** The event is dated at or after the midnight [today]. *)
Definition sinceMidnight (today : Z) (e : DoseEvent) : bool :=
  match time e with
  | Some ms => (today <=? ms)%Z
  | None => false
  end.

(** The number stored under [key], zero when there is none. *)
Definition storedUnder (key : string) (b : list (string * BreakdownValue))
    : R :=
  match assocB key b with
  | Some (BNumber (Fin x)) => x
  | _ => 0
  end.

Definition allNumbers (b : list (string * BreakdownValue)) : Prop :=
  Forall (fun kv => exists x, snd kv = BNumber (Fin x)) b.

(** A point of the calculator's curve as [generateDecayCurve] presents
    it: the same time, level and percentage, labelled with the band of
    the level scaled by the volume [v]. *)
Definition relabel (v : num) (p : ForgeCalculator.CurvePoint)
    : DecayPoint.t :=
  DecayPoint.mk (ForgeCalculator.time p) (ForgeCalculator.value p)
                (ForgeCalculator.percent p)
                (getStateFromLevel (mul (ForgeCalculator.value p) v)).

End Spec.

(* ------------------------------------------------------------------ *)
(** ** Facts about numbers *)

Section NumFacts.

Lemma Rleb_true x y : Rleb x y = true <-> x <= y.
Proof. unfold Rleb; destruct (Rle_dec x y); split; intros; try easy. Qed.

Lemma Rleb_false x y : Rleb x y = false <-> y < x.
Proof. unfold Rleb; destruct (Rle_dec x y); split; intros; try easy; lra. Qed.

Lemma Rltb_true x y : Rltb x y = true <-> x < y.
Proof. unfold Rltb; destruct (Rlt_dec x y); split; intros; try easy. Qed.

Lemma Rltb_false x y : Rltb x y = false <-> y <= x.
Proof. unfold Rltb; destruct (Rlt_dec x y); split; intros; try easy; lra. Qed.

Lemma Reqb_true x y : Reqb x y = true <-> x = y.
Proof. unfold Reqb; destruct (Req_dec_T x y); split; intros; try easy. Qed.

Lemma Reqb_false x y : Reqb x y = false <-> x <> y.
Proof. unfold Reqb; destruct (Req_dec_T x y); split; intros; try easy. Qed.

Lemma leb_Le a b : leb a b = true <-> Le a b.
Proof.
  split.
  - destruct a, b; simpl; intro H; try discriminate;
      try (constructor; first [ apply Rleb_true; exact H | discriminate ]).
  - intros [x y H | c H | c H]; simpl.
    + apply Rleb_true; exact H.
    + destruct c; try reflexivity; congruence.
    + destruct c; try reflexivity; congruence.
Qed.

Lemma ltb_Lt a b : ltb a b = true <-> Lt a b.
Proof.
  split.
  - destruct a, b; simpl; intro H; try discriminate; constructor.
    apply Rltb_true; exact H.
  - intros [x y H | y | x | ]; simpl; try reflexivity.
    apply Rltb_true; exact H.
Qed.

Lemma leb_nLe a b : leb a b = false <-> ~ Le a b.
Proof.
  rewrite <- leb_Le. destruct (leb a b); split; intros; easy.
Qed.

Lemma ltb_nLt a b : ltb a b = false <-> ~ Lt a b.
Proof.
  rewrite <- ltb_Lt. destruct (ltb a b); split; intros; easy.
Qed.

Lemma add_zero_l a : add (Fin 0) a = a.
Proof. destruct a; simpl; try reflexivity. f_equal; lra. Qed.

End NumFacts.

(** Evaluation of the real comparisons at decided instances. *)
Ltac rdec :=
  repeat match goal with
  | |- context [Rleb ?x ?y] =>
      first [ replace (Rleb x y) with true by (symmetry; apply Rleb_true; lra)
            | replace (Rleb x y) with false by (symmetry; apply Rleb_false; lra) ]
  | |- context [Rltb ?x ?y] =>
      first [ replace (Rltb x y) with true by (symmetry; apply Rltb_true; lra)
            | replace (Rltb x y) with false by (symmetry; apply Rltb_false; lra) ]
  | |- context [Reqb ?x ?y] =>
      first [ replace (Reqb x y) with true by (symmetry; apply Reqb_true; lra)
            | replace (Reqb x y) with false by (symmetry; apply Reqb_false; lra) ]
  end.

(* ------------------------------------------------------------------ *)
(** ** The level is the superposition of the past doses *)

Section Superposition.

Import CaffeineForge Spec.

Lemma hoursBetween_valid (a b : Z) :
  hoursBetween (Some a) (Some b) = Fin ((IZR a - IZR b) / (1000 * 60 * 60)).
Proof.
  unfold hoursBetween, sub; simpl. rdec. reflexivity.
Qed.

(** The loop's test [hoursElapsed >= 0] is the test [occurredAt <= now]. *)
Lemma elapsed_nonneg_iff_occurred (now : Date) (e : DoseEvent) :
  geb (hoursBetween now (time e)) (Fin 0) = occurredBy now e.
Proof.
  unfold occurredBy, geb.
  destruct now as [a|], (time e) as [b|]; try reflexivity.
  rewrite hoursBetween_valid; simpl.
  destruct (Rle_dec (IZR b) (IZR a)) as [H|H].
  - transitivity true; [apply Rleb_true | symmetry; apply Rleb_true; exact H].
    apply Rmult_le_pos; [lra | ].
    apply Rlt_le, Rinv_0_lt_compat; lra.
  - transitivity false; [apply Rleb_false | symmetry; apply Rleb_false; lra].
    apply Rmult_lt_reg_r with (r := 1000 * 60 * 60); [lra | ].
    unfold Rdiv. rewrite Rmult_assoc, Rinv_l by lra. lra.
Qed.

Lemma levelLoop_sumFrom (f : Forge) (now : Date) (events : list DoseEvent) :
  forall acc,
    levelLoop f now events acc =
    sumFrom acc (map (contribution f now) (filter (occurredBy now) events)).
Proof.
  induction events as [|e rest IH]; intro acc; cbn [levelLoop filter map].
  - reflexivity.
  - rewrite elapsed_nonneg_iff_occurred.
    destruct (occurredBy now e); cbn [map sumFrom].
    + unfold contribution at 1.
      destruct (ForgeCalculator.calculate _ _ _); cbn [bind];
        [apply IH | reflexivity].
    + apply IH.
Qed.

Lemma filter_occurredBy_idem (now : Date) (events : list DoseEvent) :
  filter (occurredBy now) (filter (occurredBy now) events) =
  filter (occurredBy now) events.
Proof.
  induction events as [|e rest IH]; simpl; [reflexivity | ].
  destruct (occurredBy now e) eqn:E; simpl; rewrite ?E, IH; reflexivity.
Qed.

(** C1.  For every tracker and query time, [getCurrentLevel] returns the
    sum, over exactly the logged events that occurred at or before the
    query time, of each event's own decay from [dose / volumeDistribution]
    over the hours elapsed, and caches it; events after the query time
    contribute nothing (dropping them from the log leaves the level as it
    is); and with two doses of 100 four hours apart the level at the second
    dose's timestamp is [getBloodLevel(100, 4) + getBloodLevel(100, 0)]. *)
Theorem getCurrentLevel_superposition :
  (forall (f : Forge) (t : timeArg),
      getCurrentLevel f t =
      (level <- superposition f (toDate t) ;;
       Ok (level,
           mkForge (setCurrentLevel (state f) level) (volumeDistribution f))))
  /\
  (forall (f : Forge) (t : Date),
      superposition f t =
      superposition
        (withHistory f (filter (occurredBy t) (caffeineHistory (state f)))) t)
  /\
  (forall (f : Forge) (t0 : Z) (src1 src2 : string) (c1 c2 : Z),
      let second := Some (t0 + 4 * 3600000)%Z in
      let g := withHistory f [ mkDoseEvent (Fin 100) (Some t0) src1 c1;
                               mkDoseEvent (Fin 100) second src2 c2 ] in
      getCurrentLevel g (ADate second) =
      (a <- getBloodLevel g (Fin 100) (Fin 4) ;;
       b <- getBloodLevel g (Fin 100) (Fin 0) ;;
       Ok (add a b,
           mkForge (setCurrentLevel (state g) (add a b))
                   (volumeDistribution g)))).
Proof.
  split; [ | split].
  - intros f t. unfold getCurrentLevel, superposition.
    rewrite levelLoop_sumFrom. reflexivity.
  - intros f t. unfold superposition, withHistory; simpl.
    rewrite filter_occurredBy_idem. reflexivity.
  - intros f t0 src1 src2 c1 c2 second g.
    assert (H4 : hoursBetween second (Some t0) = Fin 4).
    { unfold second. rewrite hoursBetween_valid. f_equal.
      rewrite plus_IZR, mult_IZR. lra. }
    assert (H0 : hoursBetween second second = Fin 0).
    { unfold second. rewrite hoursBetween_valid. f_equal. lra. }
    unfold getCurrentLevel, getBloodLevel. subst g. unfold withHistory.
    cbn [state setHistory caffeineHistory volumeDistribution rateConstant
         toDate levelLoop time dose].
    rewrite H4, H0. unfold geb; cbn [leb]. rdec.
    destruct (ForgeCalculator.calculate _ _ (Fin 4)) as [a|e]; cbn [bind];
      [ | reflexivity].
    destruct (ForgeCalculator.calculate _ _ (Fin 0)) as [b|e]; cbn [bind];
      [ | reflexivity].
    rewrite add_zero_l. reflexivity.
Qed.

(** A dose stamped after the query time adds nothing: the level of a log
    holding only such a dose is zero. *)
Lemma future_dose_excluded (f : Forge) (now later : Z) (d : num)
    (src : string) (c : Z) :
  (now < later)%Z ->
  superposition (withHistory f [mkDoseEvent d (Some later) src c]) (Some now)
  = Ok (Fin 0).
Proof.
  intro H. unfold superposition, withHistory, occurredBy; simpl.
  apply IZR_lt in H.
  replace (Rleb (IZR later) (IZR now)) with false
    by (symmetry; apply Rleb_false; exact H).
  reflexivity.
Qed.

End Superposition.

(* ------------------------------------------------------------------ *)
(** ** The calculator *)

Section Calculator.

Import ForgeCalculator.

Lemma ln2_pos : 0 < ln 2.
Proof. rewrite <- ln_1. apply ln_increasing; lra. Qed.

(** C2.  [timeToReach] returns 0 whenever [target >= initial]; otherwise
    it returns +Infinity whenever [target <= 0]; otherwise it fails with
    InvalidArgument exactly when [rate <= 0] and returns
    [ln(initial / target) / rate] when [rate > 0].  The tests are applied
    in this order, so a non-positive rate raises nothing when one of the
    first two applies. *)
Theorem timeToReach_branches (initial target rate : num) :
  (Le initial target -> timeToReach initial target rate = Ok (Fin 0))
  /\
  (~ Le initial target -> Le target (Fin 0) ->
   timeToReach initial target rate = Ok PInf)
  /\
  (~ Le initial target -> ~ Le target (Fin 0) ->
   ((exists e, timeToReach initial target rate = Throw e) <-> Le rate (Fin 0))
   /\
   (Le rate (Fin 0) ->
    exists msg, timeToReach initial target rate = Throw (InvalidArgument msg))
   /\
   (Lt (Fin 0) rate ->
    timeToReach initial target rate =
    Ok (div (log (div initial target)) rate))).
Proof.
  unfold timeToReach, geb. split; [ | split].
  - intro H. apply leb_Le in H. rewrite H. reflexivity.
  - intros H1 H2. apply leb_nLe in H1. apply leb_Le in H2.
    rewrite H1, H2. reflexivity.
  - intros H1 H2. apply leb_nLe in H1. apply leb_nLe in H2.
    rewrite H1, H2. split; [ | split].
    + destruct (leb rate (Fin 0)) eqn:E.
      * split; [intros _; apply leb_Le; exact E | intros _; eauto].
      * split; [intros [e He]; discriminate | ].
        intro H. apply leb_Le in H. congruence.
    + intro H. apply leb_Le in H. rewrite H. eauto.
    + intro H. inversion H as [x y Hxy | | | ]; subst; simpl; try reflexivity.
      rdec. reflexivity.
Qed.

(** On real arguments with [initial > target > 0] and [rate > 0] the
    result is the real [ln (initial / target) / rate]. *)
Lemma timeToReach_real (initial target rate : R) :
  0 < target -> target < initial -> 0 < rate ->
  timeToReach (Fin initial) (Fin target) (Fin rate)
  = Ok (Fin (ln (initial / target) / rate)).
Proof.
  intros Ht Hi Hr. unfold timeToReach, geb; simpl. rdec.
  assert (0 < initial / target) by (apply Rdiv_lt_0_compat; lra).
  simpl. rdec. simpl. rdec. reflexivity.
Qed.

(** The four branches at concrete arguments. *)
Lemma timeToReach_branches_witness :
  timeToReach (Fin 50) (Fin 100) (Fin (-1)) = Ok (Fin 0)
  /\ timeToReach (Fin 100) (Fin 0) (Fin (-1)) = Ok PInf
  /\ (exists msg,
        timeToReach (Fin 100) (Fin 50) (Fin 0) = Throw (InvalidArgument msg))
  /\ timeToReach (Fin 100) (Fin 50) (Fin (1386 / 10000))
     = Ok (div (log (div (Fin 100) (Fin 50))) (Fin (1386 / 10000))).
Proof.
  assert (N1 : ~ Le (Fin 100) (Fin 0))
    by (intro H; inversion H; subst; lra).
  assert (N2 : ~ Le (Fin 100) (Fin 50))
    by (intro H; inversion H; subst; lra).
  assert (N3 : ~ Le (Fin 50) (Fin 0))
    by (intro H; inversion H; subst; lra).
  split; [ | split; [ | split]].
  - apply (timeToReach_branches (Fin 50) (Fin 100) (Fin (-1))).
    constructor; lra.
  - apply (timeToReach_branches (Fin 100) (Fin 0) (Fin (-1))).
    + exact N1.
    + constructor; lra.
  - apply (timeToReach_branches (Fin 100) (Fin 50) (Fin 0)).
    + exact N2.
    + exact N3.
    + constructor; lra.
  - apply (timeToReach_branches (Fin 100) (Fin 50) (Fin (1386 / 10000))).
    + exact N2.
    + exact N3.
    + constructor; lra.
Defined.

(** C8.  For every half-life [h > 0], converting to a rate and back gives
    [h] again (exactly, over the reals, hence within any tolerance); each
    conversion is [ln 2] divided by its argument, and fails, with
    InvalidArgument, exactly when the argument is [<= 0]. *)
Theorem halfLife_rate_roundtrip :
  (forall h : R, 0 < h ->
     exists k : R,
       halfLifeToRate (Fin h) = Ok (Fin k) /\ 0 < k /\
       rateToHalfLife (Fin k) = Ok (Fin h))
  /\
  (forall x : num,
     ((exists e, halfLifeToRate x = Throw e) <-> Le x (Fin 0)) /\
     (Le x (Fin 0) ->
      exists msg, halfLifeToRate x = Throw (InvalidArgument msg)) /\
     (~ Le x (Fin 0) -> halfLifeToRate x = Ok (div LN2 x)))
  /\
  (forall x : num,
     ((exists e, rateToHalfLife x = Throw e) <-> Le x (Fin 0)) /\
     (Le x (Fin 0) ->
      exists msg, rateToHalfLife x = Throw (InvalidArgument msg)) /\
     (~ Le x (Fin 0) -> rateToHalfLife x = Ok (div LN2 x))).
Proof.
  pose proof ln2_pos as L.
  split; [ | split].
  - intros h Hh. exists (ln 2 / h).
    assert (Hk : 0 < ln 2 / h) by (apply Rdiv_lt_0_compat; lra).
    unfold halfLifeToRate, rateToHalfLife, LN2; simpl. rdec.
    repeat split; try assumption.
    do 2 f_equal. field. lra.
  - intro x. unfold halfLifeToRate.
    destruct (leb x (Fin 0)) eqn:E.
    + apply leb_Le in E. repeat split; eauto. intro N. contradiction.
    + repeat split.
      * intros [e He]; discriminate.
      * intro H. apply leb_Le in H. congruence.
      * intro H. apply leb_Le in H. congruence.
  - intro x. unfold rateToHalfLife.
    destruct (leb x (Fin 0)) eqn:E.
    + apply leb_Le in E. repeat split; eauto. intro N. contradiction.
    + repeat split.
      * intros [e He]; discriminate.
      * intro H. apply leb_Le in H. congruence.
      * intro H. apply leb_Le in H. congruence.
Qed.

(** The round trip at the typical half-life of five hours. *)
Lemma halfLife_rate_roundtrip_witness :
  exists k : R,
    halfLifeToRate (Fin 5) = Ok (Fin k) /\ 0 < k /\
    rateToHalfLife (Fin k) = Ok (Fin 5).
Proof.
  apply (proj1 halfLife_rate_roundtrip 5). lra.
Defined.

(** The loop body on real arguments in range. *)
Lemma curvePoint_real (initial rate dt : R) (i : nat) :
  0 <= initial -> 0 < rate -> 0 <= dt ->
  curvePoint (Fin initial) (Fin rate) (Fin dt) i
  = Ok (Spec.samplePoint initial rate dt i).
Proof.
  intros Hi Hr Hd. pose proof ln2_pos as L.
  assert (Ht : 0 <= INR i * dt)
    by (apply Rmult_le_pos; [apply pos_INR | exact Hd]).
  assert (Hh : 0 < ln 2 / rate) by (apply Rdiv_lt_0_compat; lra).
  unfold curvePoint, calculate, rateToHalfLife, LN2, Spec.samplePoint.
  cbn [mul ltb leb bind]. rdec. cbn [bind neg mul exp div]. rdec.
  cbn [div]. rdec. reflexivity.
Qed.

Lemma curveLoop_real (initial rate dt : R) :
  0 <= initial -> 0 < rate -> 0 <= dt ->
  forall todo i data,
    curveLoop (Fin initial) (Fin rate) (Fin dt) i todo data
    = Ok (data ++ map (Spec.samplePoint initial rate dt) (seq i todo)).
Proof.
  intros Hi Hr Hd. induction todo as [|todo IH]; intros i data.
  - cbn [curveLoop seq map]. rewrite app_nil_r. reflexivity.
  - cbn [curveLoop seq map]. rewrite curvePoint_real by assumption.
    cbn [bind]. rewrite IH, <- app_assoc. reflexivity.
Qed.

Lemma nth_error_map_seq {A : Type} (g : nat -> A) :
  forall n s i, (i < n)%nat -> nth_error (map g (seq s n)) i = Some (g (s + i)%nat).
Proof.
  induction n as [|n IH]; intros s i H; [lia | ].
  destruct i as [|i]; cbn [seq map nth_error].
  - rewrite Nat.add_0_r. reflexivity.
  - rewrite IH by lia. f_equal. f_equal. lia.
Qed.

Lemma decay_antitone (initial rate dt : R) (i j : nat) :
  0 <= initial -> 0 < rate -> 0 <= dt -> (i <= j)%nat ->
  initial * Rtrigo_def.exp (- rate * (INR j * dt))
  <= initial * Rtrigo_def.exp (- rate * (INR i * dt)).
Proof.
  intros Hi Hr Hd Hij.
  apply Rmult_le_compat_l; [exact Hi | ].
  assert (Hle : - rate * (INR j * dt) <= - rate * (INR i * dt)).
  { apply le_INR in Hij.
    assert (INR i * dt <= INR j * dt) by (apply Rmult_le_compat_r; lra).
    assert (rate * (INR i * dt) <= rate * (INR j * dt))
      by (apply Rmult_le_compat_l; lra).
    lra. }
  destruct Hle as [Hlt | Heq].
  - left. apply exp_increasing. exact Hlt.
  - right. rewrite Heq. reflexivity.
Qed.

(** C5, as the code has it.  For real [initial >= 0], [rate > 0],
    [duration > 0] and a whole number [steps >= 1], [generateCurve] returns
    exactly [steps + 1] points; point [i] is at time [i * dt] with
    [dt = duration / steps], so the first is at 0 and the last at
    [duration]; the first value is [initial]; and the values never
    increase along the sequence. *)
Theorem generateCurve_positive_rate
    (initial rate duration : R) (steps : nat) :
  0 <= initial -> 0 < rate -> 0 < duration -> (1 <= steps)%nat ->
  exists data : list CurvePoint,
    generateCurve (Fin initial) (Fin rate) (Fin duration) steps = Ok data /\
    List.length data = S steps /\
    (forall i, (i <= steps)%nat ->
       exists p, nth_error data i = Some p /\
                 time p = Fin (INR i * (duration / INR steps)) /\
                 value p =
                 Fin (initial *
                      Rtrigo_def.exp (- rate * (INR i * (duration / INR steps))))) /\
    (exists first last,
       nth_error data 0 = Some first /\ nth_error data steps = Some last /\
       time first = Fin 0 /\ value first = Fin initial /\
       time last = Fin duration) /\
    (forall i j p q, (i <= j)%nat ->
       nth_error data i = Some p -> nth_error data j = Some q ->
       Le (value q) (value p)).
Proof.
  intros Hi Hr Hd Hs.
  assert (Hn : 0 < INR steps) by (apply lt_0_INR; lia).
  assert (Hdt : 0 < duration / INR steps) by (apply Rdiv_lt_0_compat; lra).
  set (dt := duration / INR steps) in *.
  exists (map (Spec.samplePoint initial rate dt) (seq 0 (S steps))).
  assert (Hnth : forall i, (i <= steps)%nat ->
            nth_error (map (Spec.samplePoint initial rate dt) (seq 0 (S steps))) i
            = Some (Spec.samplePoint initial rate dt i)).
  { intros i Hle. rewrite nth_error_map_seq by lia. reflexivity. }
  split; [ | split; [ | split; [ | split]]].
  - unfold generateCurve. cbn [div]. rdec. fold dt.
    rewrite curveLoop_real by lra. reflexivity.
  - rewrite length_map, length_seq. reflexivity.
  - intros i Hle. exists (Spec.samplePoint initial rate dt i).
    split; [apply Hnth; exact Hle | split; reflexivity].
  - exists (Spec.samplePoint initial rate dt 0),
           (Spec.samplePoint initial rate dt steps).
    split; [apply Hnth; lia | ]. split; [apply Hnth; lia | ].
    unfold Spec.samplePoint; cbn [time value INR].
    split; [f_equal; lra | ]. split.
    + f_equal. replace (- rate * (0 * dt)) with 0 by lra.
      rewrite exp_0. lra.
    + f_equal. unfold dt. field. lra.
  - intros i j p q Hij Hp Hq.
    assert (Hj : (j <= steps)%nat).
    { apply Nat.lt_succ_r.
      assert (Hlen : (j < List.length
                         (map (Spec.samplePoint initial rate dt)
                              (seq 0 (S steps))))%nat)
        by (apply nth_error_Some; congruence).
      rewrite length_map, length_seq in Hlen. exact Hlen. }
    rewrite Hnth in Hp by lia. rewrite Hnth in Hq by lia.
    inversion Hp; inversion Hq; subst p q.
    unfold Spec.samplePoint; cbn [value]. constructor.
    apply decay_antitone; lra || assumption.
Qed.

(** A day of the typical rate in four steps gives five points. *)
Lemma generateCurve_positive_rate_witness :
  exists data : list CurvePoint,
    generateCurve (Fin 100) (Fin (1386 / 10000)) (Fin 24) 4 = Ok data /\
    List.length data = 5%nat.
Proof.
  destruct (generateCurve_positive_rate 100 (1386 / 10000) 24 4)
    as [data [H1 [H2 _]]]; try lra; try lia.
  exists data. split; assumption.
Defined.

(** A rate that is [<= 0] makes [generateCurve] fail, whatever the other
    arguments are: the loop runs at least once, and its first iteration
    raises in [calculate] or, at the latest, in [rateToHalfLife]. *)
Lemma generateCurve_nonpositive_rate
    (initial rate duration : num) (steps : nat) :
  Le rate (Fin 0) ->
  exists msg,
    generateCurve initial rate duration steps = Throw (InvalidArgument msg).
Proof.
  intro H. apply leb_Le in H.
  unfold generateCurve. cbn [curveLoop]. unfold curvePoint, calculate.
  destruct (ltb initial (Fin 0)); [cbn [bind]; eauto | ].
  destruct (ltb rate (Fin 0)); [cbn [bind]; eauto | ].
  destruct (ltb _ (Fin 0)); [cbn [bind]; eauto | ].
  cbn [bind]. unfold rateToHalfLife. rewrite H. cbn [bind]. eauto.
Qed.

(** C5 as stated fails at rate 0: the call raises and returns no points. *)
Lemma generateCurve_zero_rate_throws :
  generateCurve (Fin 100) (Fin 0) (Fin 10) 5
  = Throw (InvalidArgument "Rate constant must be positive")
  /\ ~ (exists data, generateCurve (Fin 100) (Fin 0) (Fin 10) 5 = Ok data
                     /\ List.length data = 6%nat).
Proof.
  assert (E : generateCurve (Fin 100) (Fin 0) (Fin 10) 5
              = Throw (InvalidArgument "Rate constant must be positive")).
  { unfold generateCurve. cbn [curveLoop INR div]. rdec.
    unfold curvePoint at 1. unfold calculate, rateToHalfLife.
    cbn [mul ltb leb INR]. rdec. reflexivity. }
  split; [exact E | ].
  intros [data [H _]]. rewrite E in H. discriminate.
Qed.

End Calculator.

(* ------------------------------------------------------------------ *)
(** ** The tracker: recording doses *)

Section Recording.

Import CaffeineForge Spec.

(** C3, as the code has it.  [addDose] checks nothing and never fails: for
    every amount, the negative ones included, it appends one event
    carrying that very amount to the end of the log, returns it, and
    leaves the rest of the tracker as it was. *)
Theorem addDose_appends_any_amount
    (f : Forge) (amount : num) (t : timeArg) (src : string) (clock : Z) :
  let event := mkDoseEvent amount (toDate t) src clock in
  exists f',
    addDose f amount t src clock = Ok (event, f') /\
    caffeineHistory (state f') = caffeineHistory (state f) ++ [event] /\
    dose event = amount /\
    bodyWeight (state f') = bodyWeight (state f) /\
    metabolismRate (state f') = metabolismRate (state f) /\
    currentLevel (state f') = currentLevel (state f) /\
    rateConstant (state f') = rateConstant (state f) /\
    volumeDistribution f' = volumeDistribution f.
Proof.
  intro event. eexists. split; [reflexivity | ].
  cbn. repeat split; reflexivity.
Qed.

(** C3 as stated fails: a dose of -5 is accepted and logged. *)
Lemma addDose_negative_is_logged :
  let f := constructor emptyConfig in
  Lt (Fin (-5)) (Fin 0) /\
  caffeineHistory (state f) = [] /\
  (forall e, addDose f (Fin (-5)) (ADate (Some 0%Z)) "coffee" 0 <> Throw e) /\
  exists event f',
    addDose f (Fin (-5)) (ADate (Some 0%Z)) "coffee" 0 = Ok (event, f') /\
    caffeineHistory (state f') = [event] /\
    dose event = Fin (-5).
Proof.
  cbn zeta. split; [constructor; lra | ].
  split; [reflexivity | ].
  split; [intros e H; discriminate | ].
  do 2 eexists. split; [reflexivity | ]. split; reflexivity.
Qed.

(** The negative dose comes to light only when the level is next read at
    or after its time: [calculate] then rejects the negative initial
    concentration. *)
Lemma negative_dose_breaks_getCurrentLevel :
  let f := constructor emptyConfig in
  forall event f',
    addDose f (Fin (-5)) (ADate (Some 0%Z)) "coffee" 0 = Ok (event, f') ->
    getCurrentLevel f' (ADate (Some 0%Z))
    = Throw (InvalidArgument "Initial value cannot be negative").
Proof.
  intros f event f' H. inversion H; subst; clear H.
  unfold getCurrentLevel. cbn [toDate state caffeineHistory setHistory f
    constructor updateRateConstant assign emptyConfig orElse initialState
    app levelLoop time dose volumeDistribution].
  rewrite hoursBetween_valid. unfold geb. cbn [leb]. rdec.
  unfold ForgeCalculator.calculate, VD_PER_KG.
  cbn [bodyWeight metabolismRate String.eqb Ascii.eqb Bool.eqb setRate mul div].
  rdec. cbn [ltb]. rdec. reflexivity.
Qed.

Lemma SOURCES_truthy (name : string) (unit : num) :
  assoc name SOURCES = Some unit -> truthy unit = true.
Proof.
  unfold SOURCES. cbn [assoc].
  repeat match goal with
  | |- context [String.eqb name ?k] => destruct (String.eqb name k)
  end;
  intro H; inversion H; subst; cbn [truthy]; rdec; reflexivity.
Qed.

(** A registered source records [unitAmount * servings]. *)
Lemma addBySource_registered
    (f : Forge) (name : string) (unit servings : num) (t : timeArg) (clock : Z) :
  assoc name SOURCES = Some unit ->
  addBySource f name servings t clock
  = addDose f (mul unit servings) t name clock.
Proof.
  intro H. unfold addBySource, getProperty. rewrite H.
  cbn [toBoolean toNumber]. rewrite (SOURCES_truthy name unit H).
  reflexivity.
Qed.

(** A name that is neither registered nor inherited from the prototype
    fails with UnknownSource, and nothing is logged. *)
Lemma addBySource_unknown
    (f : Forge) (name : string) (servings : num) (t : timeArg) (clock : Z) :
  assoc name SOURCES = None ->
  existsb (String.eqb name) ObjectPrototype = false ->
  addBySource f name servings t clock
  = Throw (UnknownSource ("Unknown caffeine source: " ++ name)).
Proof.
  intros H1 H2. unfold addBySource, getProperty. rewrite H1, H2.
  reflexivity.
Qed.

(** C6 at a name the table does not register but every object inherits:
    ["toString"] is not a source, yet the lookup finds the inherited
    function, the guard lets it pass, and a dose of NaN is logged. *)
Theorem addBySource_inherited_name_is_logged
    (f : Forge) (t : timeArg) (clock : Z) :
  assoc "toString" SOURCES = None /\
  (forall e, addBySource f "toString" (Fin 1) t clock <> Throw e) /\
  exists event f',
    addBySource f "toString" (Fin 1) t clock = Ok (event, f') /\
    dose event = NaN /\
    source event = "toString"%string /\
    caffeineHistory (state f') = caffeineHistory (state f) ++ [event].
Proof.
  split; [reflexivity | ].
  split; [intros e H; discriminate | ].
  do 2 eexists. split; [reflexivity | ].
  repeat split; reflexivity.
Qed.

End Recording.

(* ------------------------------------------------------------------ *)
(** ** The tracker: the dosing schedule *)

Section Dosing.

Import CaffeineForge Spec.

Lemma add_zero_r a : add a (Fin 0) = a.
Proof. destruct a; simpl; try reflexivity. f_equal; lra. Qed.

(** With a redose interval of zero the clock of the loop never moves: once
    entered, the loop is still running after any number of iterations. *)
Lemma maintenance_zero_interval
    (f : Forge) (target threshold maxDose duration : num) :
  forall fuel currentTime schedule,
    ltb currentTime duration = true ->
    maintenance fuel f target threshold maxDose (Fin 0) duration
      currentTime schedule = None.
Proof.
  induction fuel as [|fuel IH]; intros ct sched H; cbn [maintenance];
    rewrite H; [reflexivity | ].
  rewrite add_zero_r. apply IH. exact H.
Qed.

(** When the cap leaves the initial concentration at or below 70% of the
    target, [timeToReach] answers 0 and the schedule is never finished. *)
Lemma optimizeDosing_capped_never_returns
    (f : Forge) (vd target duration maxDose : R) :
  volumeDistribution f = Fin vd ->
  0 < vd -> 0 < target -> 0 < duration -> 0 < maxDose ->
  maxDose / vd <= target * (7 / 10) ->
  forall fuel,
    optimizeDosing fuel f (Fin target) (Fin duration) (Fin maxDose) = Ok None.
Proof.
  intros Hv Hvd Ht Hd Hm Hcap fuel.
  assert (Hlt : maxDose < target * vd).
  { apply Rmult_le_compat_r with (r := vd) in Hcap; [ | lra].
    unfold Rdiv in Hcap. rewrite Rmult_assoc, Rinv_l, Rmult_1_r in Hcap by lra.
    nra. }
  unfold optimizeDosing. rewrite Hv.
  cbn [mul min leb]. rdec. cbn [div]. rdec.
  unfold ForgeCalculator.timeToReach, geb. cbn [leb]. rdec. cbn [bind].
  rewrite maintenance_zero_interval; [reflexivity | ].
  cbn [ltb]. apply Rltb_true. exact Hd.
Qed.

(** C4 at the input of the repository's own dosing test,
    [optimizeDosing(100, 8, 200)] on a default tracker: the cap of 200 mg
    gives a concentration of 200/42, below the redose threshold of 70, the
    interval is 0, and no amount of iterations finishes the loop. *)
Theorem optimizeDosing_test_input_never_returns :
  forall fuel,
    optimizeDosing fuel (constructor emptyConfig) (Fin 100) (Fin 8) (Fin 200)
    = Ok None.
Proof.
  apply (optimizeDosing_capped_never_returns _ (70 * (6 / 10))); try lra.
  reflexivity.
Qed.




End Dosing.

(* ------------------------------------------------------------------ *)
(** ** The tracker: configuration and saved state *)

Section Configuration.

Import CaffeineForge Spec.

Lemma updateRateConstant_spec (f : Forge) :
  let f' := updateRateConstant f in
  rateConstant (state f') = rateFor (metabolismRate (state f)) /\
  metabolismRate (state f') = metabolismRate (state f) /\
  bodyWeight (state f') = bodyWeight (state f) /\
  caffeineHistory (state f') = caffeineHistory (state f) /\
  currentLevel (state f') = currentLevel (state f) /\
  volumeDistribution f' = volumeDistribution f.
Proof.
  unfold updateRateConstant, rateFor. cbn zeta.
  destruct (String.eqb (metabolismRate (state f)) "fast");
    [cbn; repeat split; reflexivity | ].
  destruct (String.eqb (metabolismRate (state f)) "slow");
    cbn; repeat split; reflexivity.
Qed.

(** The constructor derives both fields from whatever it is given. *)
Lemma constructor_consistent (userConfig : Config) :
  consistent (constructor userConfig).
Proof.
  unfold consistent, constructor.
  destruct (updateRateConstant_spec
              (mkForge (assign initialState userConfig) NaN))
    as [Hr [Hm _]].
  cbn [state volumeDistribution]. split; [ | reflexivity].
  rewrite Hr, Hm. reflexivity.
Qed.

(** X28.  [updateConfig] keeps the derived fields in step for an update that
    leaves the derived keys alone and whose body weight and profile, when
    given, are truthy. *)
Lemma updateConfig_keeps_consistent (f : Forge) (config : Config) :
  consistent f ->
  cfg_rateConstant config = None ->
  (cfg_bodyWeight config = None \/ truthyOpt (cfg_bodyWeight config) = true) ->
  (cfg_metabolismRate config = None \/
   nonEmptyOpt (cfg_metabolismRate config) = true) ->
  consistent (updateConfig f config).
Proof.
  intros [Hr Hv] Hk Hb Hm. unfold updateConfig.
  set (f2 := if truthyOpt (cfg_bodyWeight config) then _ else _).
  assert (H2 : volumeDistribution f2 = mul (bodyWeight (state f2)) VD_PER_KG
                /\ state f2 = assign (state f) config).
  { subst f2. destruct Hb as [Hb | Hb].
    - rewrite Hb. cbn [truthyOpt state volumeDistribution assign bodyWeight orElse].
      rewrite Hb. cbn [orElse]. split; [exact Hv | reflexivity].
    - rewrite Hb. destruct (cfg_bodyWeight config) as [w|] eqn:Ew;
        [ | discriminate].
      cbn [state volumeDistribution assign bodyWeight orElse].
      rewrite Ew. split; reflexivity. }
  destruct H2 as [Hv2 Hs2].
  destruct Hm as [Hm | Hm].
  - rewrite Hm. cbn [nonEmptyOpt]. split; [ | exact Hv2].
    rewrite Hs2. cbn [assign rateConstant metabolismRate].
    rewrite Hk, Hm. cbn [orElse]. exact Hr.
  - rewrite Hm.
    destruct (updateRateConstant_spec f2) as [Hr' [Hm' [Hb' [_ [_ Hv']]]]].
    split; [rewrite Hr', Hm'; reflexivity | ].
    rewrite Hv', Hb'. exact Hv2.
Qed.

(** C7 at an update the guard misses: a body weight of 0 is stored in the
    state, but, being falsy, does not trigger the recomputation, and the
    volume of distribution stays that of 70 kg.  The constructor, given
    the same configuration, derives the volume from the stored weight. *)
Theorem updateConfig_zero_bodyWeight_is_stale :
  let zero := mkConfig (Some (Fin 0)) None None None None None in
  let f := constructor emptyConfig in
  let f' := updateConfig f zero in
  consistent f /\
  bodyWeight (state f') = Fin 0 /\
  volumeDistribution f' = volumeDistribution f /\
  volumeDistribution f' <> mul (bodyWeight (state f')) VD_PER_KG /\
  ~ consistent f' /\
  consistent (constructor zero).
Proof.
  cbn zeta.
  set (zero := mkConfig (Some (Fin 0)) None None None None None).
  set (f := constructor emptyConfig).
  assert (E : updateConfig f zero
              = mkForge (assign (state f) zero) (volumeDistribution f)).
  { unfold updateConfig, zero. cbn [cfg_bodyWeight truthyOpt truthy]. rdec.
    reflexivity. }
  rewrite E. cbn [state volumeDistribution assign zero cfg_bodyWeight orElse
                  bodyWeight].
  assert (Hne : volumeDistribution f <> mul (Fin 0) VD_PER_KG).
  { cbn. intro H. inversion H. lra. }
  split; [apply constructor_consistent | ].
  split; [reflexivity | ].
  split; [reflexivity | ].
  split; [exact Hne | ].
  split; [ | apply constructor_consistent].
  intros [_ Hv]. apply Hne. exact Hv.
Qed.

(** An update to 80 kg and the fast profile keeps the fields in step. *)
Lemma updateConfig_keeps_consistent_witness :
  consistent
    (updateConfig (constructor emptyConfig)
       (mkConfig (Some (Fin 80)) (Some "fast"%string) None None None None)).
Proof.
  apply updateConfig_keeps_consistent.
  - apply constructor_consistent.
  - reflexivity.
  - right. cbn [cfg_bodyWeight truthyOpt truthy]. rdec. reflexivity.
  - right. reflexivity.
Defined.

(** The recognised version: the saved keys are merged in and the derived
    fields recomputed from the merged state. *)
Lemma importState_recognised (f : Forge) (saved : SavedState) :
  version saved = "1.0"%string ->
  let f' := importState f saved in
  let s := saved_state saved in
  bodyWeight (state f') = orElse (cfg_bodyWeight s) (bodyWeight (state f)) /\
  metabolismRate (state f')
    = orElse (cfg_metabolismRate s) (metabolismRate (state f)) /\
  caffeineHistory (state f')
    = orElse (cfg_caffeineHistory s) (caffeineHistory (state f)) /\
  currentLevel (state f')
    = orElse (cfg_currentLevel s) (currentLevel (state f)) /\
  rateConstant (state f') = rateFor (metabolismRate (state f')) /\
  volumeDistribution f' = mul (bodyWeight (state f')) VD_PER_KG.
Proof.
  intro H. unfold importState. rewrite H.
  cbn [String.eqb Ascii.eqb Bool.eqb]. cbn zeta.
  destruct (updateRateConstant_spec
              (mkForge (assign (state f) (saved_state saved))
                       (volumeDistribution f)))
    as [Hr [Hm [Hb [Hh [Hl _]]]]].
  cbn [state volumeDistribution] in *.
  repeat split.
  - rewrite Hb. reflexivity.
  - rewrite Hm. reflexivity.
  - rewrite Hh. reflexivity.
  - rewrite Hl. reflexivity.
  - rewrite Hr, Hm. reflexivity.
Qed.

(** C9.  [importState] with a version tag other than ["1.0"] changes
    nothing at all; with the tag ["1.0"] every key of the saved state
    replaces the tracker's, the keys the blob lacks stay, and the derived
    fields are recomputed from the restored profile and body weight, so
    that they are consistent.  There is no third outcome. *)
Theorem importState_all_or_nothing (f : Forge) (saved : SavedState) :
  (version saved <> "1.0"%string -> importState f saved = f)
  /\
  (version saved = "1.0"%string ->
   let f' := importState f saved in
   let s := saved_state saved in
   bodyWeight (state f') = orElse (cfg_bodyWeight s) (bodyWeight (state f)) /\
   metabolismRate (state f')
     = orElse (cfg_metabolismRate s) (metabolismRate (state f)) /\
   caffeineHistory (state f')
     = orElse (cfg_caffeineHistory s) (caffeineHistory (state f)) /\
   currentLevel (state f')
     = orElse (cfg_currentLevel s) (currentLevel (state f)) /\
   consistent f').
Proof.
  split.
  - intro H. unfold importState. apply String.eqb_neq in H. rewrite H.
    reflexivity.
  - intro H.
    destruct (importState_recognised f saved H) as [Hb [Hm [Hh [Hl [Hr Hv]]]]].
    cbn zeta. repeat split; assumption.
Qed.

(** A blob tagged 2.0 is ignored; an exported blob is restored
    consistently. *)
Lemma importState_all_or_nothing_witness :
  importState (constructor emptyConfig)
    (mkSavedState "2.0" (mkConfig (Some (Fin 80)) None None None None None) 0)
  = constructor emptyConfig
  /\
  consistent
    (importState (constructor emptyConfig)
       (exportState
          (constructor (mkConfig (Some (Fin 80)) None None None None None)) 0)).
Proof.
  split.
  - apply (importState_all_or_nothing (constructor emptyConfig)).
    cbn [version]. discriminate.
  - apply (importState_all_or_nothing (constructor emptyConfig)).
    reflexivity.
Defined.

(** X29.  What one tracker exports, another restores: the stored fields and the
    derived ones all agree with the exporter's. *)
Lemma import_of_export (f g : Forge) (clock : Z) :
  consistent f ->
  let g' := importState g (exportState f clock) in
  bodyWeight (state g') = bodyWeight (state f) /\
  metabolismRate (state g') = metabolismRate (state f) /\
  caffeineHistory (state g') = caffeineHistory (state f) /\
  currentLevel (state g') = currentLevel (state f) /\
  rateConstant (state g') = rateConstant (state f) /\
  volumeDistribution g' = volumeDistribution f.
Proof.
  intros [Hr Hv]. cbn zeta.
  destruct (importState_recognised g (exportState f clock) eq_refl)
    as [Hb [Hm [Hh [Hl [Hk Hvd]]]]].
  cbn [exportState saved_state snapshot cfg_bodyWeight cfg_metabolismRate
       cfg_caffeineHistory cfg_currentLevel orElse] in *.
  repeat split; try assumption.
  - rewrite Hk, Hm, Hr. reflexivity.
  - rewrite Hvd, Hb, Hv. reflexivity.
Qed.

End Configuration.

(* ------------------------------------------------------------------ *)
(** ** The tracker: time until sleep *)

Section Sleep.

Import CaffeineForge Spec.

(** The tracker a bare [new CaffeineForge()] builds. *)
Lemma default_forge :
  constructor emptyConfig
  = mkForge (mkState (Fin 70) "typical" [] (Fin 0)
                     RATE_TYPICAL HALF_LIFE_TYPICAL)
            (Fin (70 * (6 / 10))).
Proof. reflexivity. Qed.

(** C10.  A threshold argument of 0 is falsy and is replaced by the
    default threshold of 10: the call is the call with threshold 10.  So
    whenever the current level is [<= 10] the answer is zero hours and
    [canSleepNow = true], also for a level above 0; and for a level above
    10 the target handed to [timeToReach] is 10, which is positive, so the
    answer there is never the +Infinity of a non-positive target: it is
    the rate error or [ln(level / 10) / rate]. *)
Theorem getTimeUntilSleep_zero_threshold (f : Forge) (fromTime : Date) :
  thresholdOrDefault (Some (Fin 0)) = Fin 10
  /\
  getTimeUntilSleep f (Some (Fin 0)) fromTime
  = getTimeUntilSleep f (Some (Fin 10)) fromTime
  /\
  (forall level f',
     getCurrentLevel f (ADate fromTime) = Ok (level, f') ->
     Le level (Fin 10) ->
     getTimeUntilSleep f (Some (Fin 0)) fromTime
     = Ok (mkSleepInfo (Fin 0) fromTime true level, f'))
  /\
  (forall level f',
     getCurrentLevel f (ADate fromTime) = Ok (level, f') ->
     ~ Le level (Fin 10) ->
     getTimeUntilSleep f (Some (Fin 0)) fromTime
     = (hours <- (if leb (rateConstant (state f')) (Fin 0)
                  then Throw (InvalidArgument "Rate constant must be positive")
                  else Ok (div (log (div level (Fin 10)))
                               (rateConstant (state f')))) ;;
        Ok (mkSleepInfo hours
              (newDate (add (getTime fromTime)
                 (mul (mul (mul hours (Fin 60)) (Fin 60)) (Fin 1000))))
              false level, f'))).
Proof.
  assert (T0 : thresholdOrDefault (Some (Fin 0)) = Fin 10).
  { unfold thresholdOrDefault. cbn [truthy]. rdec. reflexivity. }
  assert (T10 : thresholdOrDefault (Some (Fin 10)) = Fin 10).
  { unfold thresholdOrDefault. cbn [truthy]. rdec. reflexivity. }
  split; [exact T0 | ].
  split; [unfold getTimeUntilSleep; rewrite T0, T10; reflexivity | ].
  split.
  - intros level f' Hl Hle. unfold getTimeUntilSleep.
    rewrite T0, Hl. cbn [bind]. apply leb_Le in Hle. rewrite Hle.
    reflexivity.
  - intros level f' Hl Hgt. unfold getTimeUntilSleep.
    rewrite T0, Hl. cbn [bind]. apply leb_nLe in Hgt. rewrite Hgt.
    unfold ForgeCalculator.timeToReach, geb. rewrite Hgt.
    cbn [leb]. rdec. reflexivity.
Qed.

(** One coffee-sized dose of 100 mg on a default tracker, read at the
    moment it is taken: the level is 100/42, above the requested 0, and
    the answer is that sleep is possible now. *)
Lemma getTimeUntilSleep_zero_threshold_witness :
  let now := Some 0%Z in
  let f := withHistory (constructor emptyConfig)
             [mkDoseEvent (Fin 100) now "coffee" 0] in
  exists level f',
    getCurrentLevel f (ADate now) = Ok (level, f') /\
    Lt (Fin 0) level /\
    getTimeUntilSleep f (Some (Fin 0)) now
    = Ok (mkSleepInfo (Fin 0) now true level, f').
Proof.
  cbn zeta.
  set (now := Some 0%Z).
  set (f := withHistory (constructor emptyConfig)
              [mkDoseEvent (Fin 100) now "coffee" 0]).
  assert (Hl : getCurrentLevel f (ADate now)
               = Ok (Fin (100 / (70 * (6 / 10))
                          * Rtrigo_def.exp (- (1386 / 10000) * 0)),
                     mkForge (setCurrentLevel (state f)
                                (Fin (100 / (70 * (6 / 10))
                                      * Rtrigo_def.exp (- (1386 / 10000) * 0))))
                             (volumeDistribution f))).
  { unfold getCurrentLevel, f, now, withHistory. rewrite default_forge.
    cbn [toDate state caffeineHistory setHistory levelLoop time dose
         volumeDistribution bodyWeight metabolismRate currentLevel
         rateConstant halfLife].
    rewrite hoursBetween_valid. unfold geb. cbn [leb]. rdec.
    unfold ForgeCalculator.calculate, RATE_TYPICAL.
    cbn [div]. rdec. cbn [ltb]. rdec. cbn [bind neg mul exp add].
    replace ((0 - 0) / (1000 * 60 * 60)) with 0 by lra.
    rewrite Rplus_0_l. reflexivity. }
  assert (Hexp : Rtrigo_def.exp (- (1386 / 10000) * 0) = 1)
    by (replace (- (1386 / 10000) * 0) with 0 by lra; apply exp_0).
  do 2 eexists. split; [exact Hl | ]. split.
  - constructor. rewrite Hexp. lra.
  - apply (getTimeUntilSleep_zero_threshold f now); [exact Hl | ].
    constructor. rewrite Hexp. lra.
Defined.

End Sleep.

(* ------------------------------------------------------------------ *)
(** ** Laws of the decay formula *)

Section DecayLaws.

Import ForgeCalculator.

(** [calculate] on real arguments in range. *)
Lemma calculate_real (initial rate time : R) :
  0 <= initial -> 0 <= rate -> 0 <= time ->
  calculate (Fin initial) (Fin rate) (Fin time)
  = Ok (Fin (initial * Rtrigo_def.exp (- rate * time))).
Proof.
  intros Hi Hr Ht. unfold calculate. cbn [ltb]. rdec. reflexivity.
Qed.

Lemma exp_le_1 (x : R) : x <= 0 -> Rtrigo_def.exp x <= 1.
Proof.
  intros [H | H].
  - left. rewrite <- exp_0. apply exp_increasing. exact H.
  - right. rewrite H. apply exp_0.
Qed.

Lemma calculate_error_kind (initial rate time : num) (e : exn) :
  ForgeCalculator.calculate initial rate time = Throw e ->
  exists msg, e = InvalidArgument msg.
Proof.
  unfold calculate.
  destruct (ltb initial (Fin 0)); [intro H; inversion H; eauto | ].
  destruct (ltb rate (Fin 0)); [intro H; inversion H; eauto | ].
  destruct (ltb time (Fin 0)); [intro H; inversion H; eauto | ].
  discriminate.
Qed.

(** [calculate] raises exactly when one of its arguments is negative; an
    argument that is NaN is never rejected. *)
Theorem calculate_throws_iff_negative (initial rate time : num) :
  ((exists e, calculate initial rate time = Throw e) <->
   (Lt initial (Fin 0) \/ Lt rate (Fin 0) \/ Lt time (Fin 0)))
  /\
  (forall e, calculate initial rate time = Throw e ->
             exists msg, e = InvalidArgument msg)
  /\
  calculate NaN NaN NaN = Ok NaN.
Proof.
  unfold calculate. split; [ | split].
  - destruct (ltb initial (Fin 0)) eqn:Ei.
    { apply ltb_Lt in Ei. split; eauto. }
    destruct (ltb rate (Fin 0)) eqn:Er.
    { apply ltb_Lt in Er. split; eauto. }
    destruct (ltb time (Fin 0)) eqn:Et.
    { apply ltb_Lt in Et. split; eauto. }
    apply ltb_nLt in Ei, Er, Et. split.
    + intros [e H]. discriminate.
    + intros [H | [H | H]]; contradiction.
  - intros e.
    destruct (ltb initial (Fin 0)); [intro H; inversion H; eauto | ].
    destruct (ltb rate (Fin 0)); [intro H; inversion H; eauto | ].
    destruct (ltb time (Fin 0)); [intro H; inversion H; eauto | ].
    discriminate.
  - reflexivity.
Qed.

(** X1.  For real arguments in range the result lies between 0 and the initial
    amount, and is the initial amount itself when the rate or the time is
    zero. *)
Theorem calculate_bounds (initial rate time : R) :
  0 <= initial -> 0 <= rate -> 0 <= time ->
  exists v : R,
    calculate (Fin initial) (Fin rate) (Fin time) = Ok (Fin v) /\
    0 <= v <= initial /\
    (rate = 0 \/ time = 0 -> v = initial).
Proof.
  intros Hi Hr Ht. eexists. split; [apply calculate_real; assumption | ].
  assert (Hx : - rate * time <= 0).
  { assert (0 <= rate * time) by (apply Rmult_le_pos; assumption). lra. }
  pose proof (exp_pos (- rate * time)) as Hp.
  pose proof (exp_le_1 _ Hx) as H1.
  split; [split | ].
  - apply Rmult_le_pos; lra.
  - rewrite <- (Rmult_1_r initial) at 2. apply Rmult_le_compat_l; lra.
  - intros [H | H]; subst.
    + replace (- 0 * time) with 0 by lra. rewrite exp_0. lra.
    + replace (- rate * 0) with 0 by lra. rewrite exp_0. lra.
Qed.

Lemma calculate_bounds_witness :
  exists v : R,
    calculate (Fin 100) (Fin 0) (Fin 5) = Ok (Fin v) /\
    0 <= v <= 100 /\ (0 = 0 \/ 5 = 0 -> v = 100).
Proof. apply (calculate_bounds 100 0 5); lra. Defined.

(** X2.  More time or a larger rate never leaves more: the result does not
    increase in the time, nor in the rate. *)
Theorem calculate_antitone (initial rate1 rate2 time1 time2 : R) :
  0 <= initial -> 0 <= rate1 <= rate2 -> 0 <= time1 <= time2 ->
  exists v1 v2 : R,
    calculate (Fin initial) (Fin rate1) (Fin time1) = Ok (Fin v1) /\
    calculate (Fin initial) (Fin rate2) (Fin time2) = Ok (Fin v2) /\
    v2 <= v1.
Proof.
  intros Hi [Hr1 Hr] [Ht1 Ht].
  do 2 eexists. split; [apply calculate_real; lra | ].
  split; [apply calculate_real; lra | ].
  apply Rmult_le_compat_l; [exact Hi | ].
  assert (Hle : - rate2 * time2 <= - rate1 * time1).
  { assert (rate1 * time1 <= rate2 * time2)
      by (apply Rmult_le_compat; lra).
    lra. }
  destruct Hle as [Hlt | Heq].
  - left. apply exp_increasing. exact Hlt.
  - right. rewrite Heq. reflexivity.
Qed.

Lemma calculate_antitone_witness :
  exists v1 v2 : R,
    calculate (Fin 100) (Fin (1 / 10)) (Fin 1) = Ok (Fin v1) /\
    calculate (Fin 100) (Fin (2 / 10)) (Fin 3) = Ok (Fin v2) /\
    v2 <= v1.
Proof. apply (calculate_antitone 100 (1 / 10) (2 / 10) 1 3); lra. Defined.

(** X3.  Decaying for [time1] and then, from what is left, for [time2] is
    decaying for [time1 + time2]. *)
Theorem calculate_compose (initial rate time1 time2 : R) :
  0 <= initial -> 0 <= rate -> 0 <= time1 -> 0 <= time2 ->
  (left <- calculate (Fin initial) (Fin rate) (Fin time1) ;;
   calculate left (Fin rate) (Fin time2))
  = calculate (Fin initial) (Fin rate) (Fin (time1 + time2)).
Proof.
  intros Hi Hr H1 H2.
  rewrite calculate_real by assumption. cbn [bind].
  pose proof (exp_pos (- rate * time1)) as Hp.
  rewrite !calculate_real; try lra.
  - do 2 f_equal.
    replace (- rate * (time1 + time2))
      with (- rate * time1 + - rate * time2) by lra.
    rewrite exp_plus. ring.
  - apply Rmult_le_pos; lra.
Qed.

Lemma calculate_compose_witness :
  (left <- calculate (Fin 100) (Fin (1386 / 10000)) (Fin 2) ;;
   calculate left (Fin (1386 / 10000)) (Fin 3))
  = calculate (Fin 100) (Fin (1386 / 10000)) (Fin (2 + 3)).
Proof. apply calculate_compose; lra. Defined.

Lemma exp_neg_ln (x : R) : 0 < x -> Rtrigo_def.exp (- ln x) = / x.
Proof. intro H. rewrite exp_Ropp, exp_ln by exact H. reflexivity. Qed.

(** X4.  After one half-life, as [rateToHalfLife] gives it, exactly half of
    the initial amount is left. *)
Theorem half_life_halves (initial rate : R) :
  0 <= initial -> 0 < rate ->
  (halfLife <- rateToHalfLife (Fin rate) ;;
   calculate (Fin initial) (Fin rate) halfLife)
  = Ok (Fin (initial / 2)).
Proof.
  intros Hi Hr. pose proof ln2_pos as L.
  unfold rateToHalfLife, LN2. cbn [leb div]. rdec. cbn [bind].
  assert (0 < ln 2 / rate) by (apply Rdiv_lt_0_compat; lra).
  rewrite calculate_real by lra. do 2 f_equal.
  replace (- rate * (ln 2 / rate)) with (- ln 2) by (field; lra).
  rewrite exp_neg_ln by lra. lra.
Qed.

Lemma half_life_halves_witness :
  (halfLife <- rateToHalfLife (Fin (1386 / 10000)) ;;
   calculate (Fin 100) (Fin (1386 / 10000)) halfLife)
  = Ok (Fin (100 / 2)).
Proof. apply half_life_halves; lra. Defined.

(** After one time constant, as [timeConstant] gives it, the amount is the
    initial amount divided by e. *)
Theorem time_constant_decay (initial rate : R) :
  0 <= initial -> 0 < rate ->
  (tau <- timeConstant (Fin rate) ;;
   calculate (Fin initial) (Fin rate) tau)
  = Ok (Fin (initial / Rtrigo_def.exp 1)).
Proof.
  intros Hi Hr.
  unfold timeConstant. cbn [leb div]. rdec. cbn [bind].
  assert (0 < 1 / rate) by (apply Rdiv_lt_0_compat; lra).
  rewrite calculate_real by lra. do 2 f_equal.
  replace (- rate * (1 / rate)) with (- (1)) by (field; lra).
  rewrite exp_Ropp. reflexivity.
Qed.

Lemma time_constant_decay_witness :
  (tau <- timeConstant (Fin 2) ;; calculate (Fin 100) (Fin 2) tau)
  = Ok (Fin (100 / Rtrigo_def.exp 1)).
Proof. apply time_constant_decay; lra. Defined.



End DecayLaws.

(* ------------------------------------------------------------------ *)
(** ** Percentages, growth and combined decays *)

Section Derived.

Import ForgeCalculator.

(** X6.  On arguments in range [percentRemaining] is the percentage that
    [percentOf] reads off the result of [calculate], whatever positive
    amount one starts from. *)
Theorem percentRemaining_agrees_with_calculate (initial rate time : R) :
  0 < initial -> 0 <= rate -> 0 <= time ->
  (left <- calculate (Fin initial) (Fin rate) (Fin time) ;;
   Ok (percentOf left (Fin initial)))
  = Ok (percentRemaining (Fin rate) (Fin time)).
Proof.
  intros Hi Hr Ht. rewrite calculate_real by lra. cbn [bind].
  unfold percentOf, percentRemaining. cbn [strictEq div mul neg exp]. rdec.
  cbn [mul]. do 2 f_equal. field. lra.
Qed.

Lemma percentRemaining_agrees_with_calculate_witness :
  (left <- calculate (Fin 80) (Fin (1386 / 10000)) (Fin 5) ;;
   Ok (percentOf left (Fin 80)))
  = Ok (percentRemaining (Fin (1386 / 10000)) (Fin 5)).
Proof. apply percentRemaining_agrees_with_calculate; lra. Defined.

(** [percentRemaining] checks nothing: for a negative time, which
    [calculate] rejects, it answers a percentage above 100. *)
Theorem percentRemaining_unchecked (rate time : R) :
  0 < rate -> time < 0 ->
  (exists p : R, percentRemaining (Fin rate) (Fin time) = Fin p /\ 100 < p)
  /\
  calculate (Fin 100) (Fin rate) (Fin time)
  = Throw (InvalidArgument "Time cannot be negative").
Proof.
  intros Hr Ht. split.
  - eexists. split; [reflexivity | ].
    assert (0 < - rate * time).
    { replace (- rate * time) with (rate * - time) by lra.
      apply Rmult_lt_0_compat; lra. }
    assert (1 < Rtrigo_def.exp (- rate * time))
      by (rewrite <- exp_0; apply exp_increasing; assumption).
    lra.
  - unfold calculate. cbn [ltb]. rdec. reflexivity.
Qed.

Lemma percentRemaining_unchecked_witness :
  (exists p : R,
     percentRemaining (Fin (1386 / 10000)) (Fin (-5)) = Fin p /\ 100 < p)
  /\
  calculate (Fin 100) (Fin (1386 / 10000)) (Fin (-5))
  = Throw (InvalidArgument "Time cannot be negative").
Proof. apply percentRemaining_unchecked; lra. Defined.

(** [percentOf] undoes [amountAtPercent] for every initial amount but
    zero, where it answers 0 whatever the current amount is. *)
Theorem percentOf_amountAtPercent :
  (forall initial percent : R,
     initial <> 0 ->
     percentOf (amountAtPercent (Fin initial) (Fin percent)) (Fin initial)
     = Fin percent)
  /\
  (forall current : num, percentOf current (Fin 0) = Fin 0).
Proof.
  split.
  - intros initial p Hi.
    pose proof (proj2 (Reqb_false initial 0) Hi) as E.
    unfold percentOf, amountAtPercent. cbn [strictEq div mul]. rdec.
    cbn [div mul]. rewrite !E. cbn [mul]. f_equal. field. exact Hi.
  - intro current. unfold percentOf. cbn [strictEq]. rdec. reflexivity.
Qed.

Lemma percentOf_amountAtPercent_witness :
  percentOf (amountAtPercent (Fin 80) (Fin 25)) (Fin 80) = Fin 25.
Proof. apply (proj1 percentOf_amountAtPercent). lra. Defined.

Lemma logistic_real (initial capacity rate time : R) :
  0 < initial -> initial <= capacity ->
  logisticGrowth (Fin initial) (Fin capacity) (Fin rate) (Fin time)
  = Ok (Fin (capacity /
             (1 + (capacity - initial) / initial
                  * Rtrigo_def.exp (- rate * time)))).
Proof.
  intros Hi Hc. pose proof (exp_pos (- rate * time)) as Hp.
  assert (Hq : 0 <= (capacity - initial) / initial).
  { apply Rmult_le_pos; [lra | ]. apply Rlt_le, Rinv_0_lt_compat; lra. }
  assert (0 <= (capacity - initial) / initial
               * Rtrigo_def.exp (- rate * time))
    by (apply Rmult_le_pos; lra).
  unfold logisticGrowth, sub. cbn [leb neg add div]. rdec.
  cbn [mul exp add div]. rdec. reflexivity.
Qed.

(** X7.  Logistic growth starts at the initial population and, for a
    population that starts at or below the capacity and a rate and time
    that are not negative, stays between the two. *)
Theorem logisticGrowth_bounds (initial capacity rate time : R) :
  0 < initial -> initial <= capacity -> 0 <= rate -> 0 <= time ->
  logisticGrowth (Fin initial) (Fin capacity) (Fin rate) (Fin 0)
  = Ok (Fin initial)
  /\
  exists p : R,
    logisticGrowth (Fin initial) (Fin capacity) (Fin rate) (Fin time)
    = Ok (Fin p) /\
    initial <= p <= capacity.
Proof.
  intros Hi Hc Hr Ht. split.
  - rewrite logistic_real by assumption. do 2 f_equal.
    replace (- rate * 0) with 0 by lra. rewrite exp_0. field. lra.
  - eexists. split; [apply logistic_real; assumption | ].
    pose proof (exp_pos (- rate * time)) as Hp.
    assert (Hx : - rate * time <= 0).
    { assert (0 <= rate * time) by (apply Rmult_le_pos; assumption). lra. }
    pose proof (exp_le_1 _ Hx) as H1.
    set (e := Rtrigo_def.exp (- rate * time)) in *.
    assert (Hq : 0 <= (capacity - initial) / initial).
    { apply Rmult_le_pos; [lra | ]. apply Rlt_le, Rinv_0_lt_compat; lra. }
    assert (Hqe : 0 <= (capacity - initial) / initial * e)
      by (apply Rmult_le_pos; lra).
    assert (Hqe1 : (capacity - initial) / initial * e
                   <= (capacity - initial) / initial).
    { rewrite <- (Rmult_1_r ((capacity - initial) / initial)) at 2.
      apply Rmult_le_compat_l; lra. }
    set (d := 1 + (capacity - initial) / initial * e) in *.
    assert (Hd : 1 <= d) by (unfold d; lra).
    assert (Hdu : d <= capacity / initial).
    { unfold d. replace (capacity / initial)
        with (1 + (capacity - initial) / initial) by (field; lra). lra. }
    split.
    + apply Rmult_le_reg_r with (r := d); [lra | ].
      unfold Rdiv. rewrite Rmult_assoc, Rinv_l, Rmult_1_r by lra.
      apply Rmult_le_compat_l with (r := initial) in Hdu; [ | lra].
      replace (initial * (capacity / initial)) with capacity in Hdu
        by (field; lra).
      exact Hdu.
    + apply Rmult_le_reg_r with (r := d); [lra | ].
      unfold Rdiv. rewrite Rmult_assoc, Rinv_l, Rmult_1_r by lra.
      rewrite <- (Rmult_1_r capacity) at 1.
      apply Rmult_le_compat_l; lra.
Qed.

Lemma logisticGrowth_bounds_witness :
  logisticGrowth (Fin 10) (Fin 1000) (Fin (1 / 2)) (Fin 0) = Ok (Fin 10)
  /\
  exists p : R,
    logisticGrowth (Fin 10) (Fin 1000) (Fin (1 / 2)) (Fin 5) = Ok (Fin p) /\
    10 <= p <= 1000.
Proof. apply logisticGrowth_bounds; lra. Defined.

(** Two compartments that share one rate are a single decay of the sum of
    their coefficients. *)
Theorem biExponential_same_rate (A B rate time : R) :
  0 <= A -> 0 <= B -> 0 <= rate -> 0 <= time ->
  Ok (biExponential (Fin A) (Fin rate) (Fin B) (Fin rate) (Fin time))
  = calculate (Fin (A + B)) (Fin rate) (Fin time).
Proof.
  intros HA HB Hr Ht. rewrite calculate_real by lra.
  unfold biExponential. cbn. do 2 f_equal. ring.
Qed.

Lemma biExponential_same_rate_witness :
  Ok (biExponential (Fin 80) (Fin (1 / 2)) (Fin 20) (Fin (1 / 2)) (Fin 5))
  = calculate (Fin (80 + 20)) (Fin (1 / 2)) (Fin 5).
Proof. apply biExponential_same_rate; lra. Defined.

End Derived.

(* ------------------------------------------------------------------ *)
(** ** Sums of rates, factorials and batches *)

Section Combined.

Import ForgeCalculator.

Lemma fold_Rplus_shift (l : list R) :
  forall a, fold_left Rplus l a = a + fold_left Rplus l 0.
Proof.
  induction l as [|x l IH]; intro a; cbn [fold_left]; [lra | ].
  rewrite (IH (a + x)), (IH (0 + x)). lra.
Qed.

Lemma fold_add_Fin (l : list R) :
  forall a,
    fold_left (fun sum rate => add sum rate) (map Fin l) (Fin a)
    = Fin (fold_left Rplus l a).
Proof.
  induction l as [|x l IH]; intro a; cbn [fold_left map]; [reflexivity | ].
  cbn [add]. apply IH.
Qed.

Lemma fold_Rplus_nonneg (l : list R) :
  Forall (fun x => 0 <= x) l -> 0 <= fold_left Rplus l 0.
Proof.
  induction 1 as [|x l Hx _ IH]; cbn [fold_left]; [lra | ].
  rewrite fold_Rplus_shift. lra.
Qed.

(** X8.  Decay mechanisms acting together are the same as acting one after the
    other over the same span: the composite decay under the rates
    [rates1 ++ rates2] is the composite decay under [rates2] of what the
    composite decay under [rates1] leaves. *)
Theorem compositeDecay_sequential
    (initial time : R) (rates1 rates2 : list R) :
  0 <= initial -> 0 <= time ->
  Forall (fun k => 0 <= k) rates1 -> Forall (fun k => 0 <= k) rates2 ->
  compositeDecay (Fin initial) (map Fin (rates1 ++ rates2)) (Fin time)
  = (left <- compositeDecay (Fin initial) (map Fin rates1) (Fin time) ;;
     compositeDecay left (map Fin rates2) (Fin time)).
Proof.
  intros Hi Ht H1 H2. unfold compositeDecay.
  rewrite !fold_add_Fin, fold_left_app.
  rewrite (fold_Rplus_shift rates2 (fold_left Rplus rates1 0)).
  apply fold_Rplus_nonneg in H1, H2.
  set (s1 := fold_left Rplus rates1 0) in *.
  set (s2 := fold_left Rplus rates2 0) in *.
  rewrite (calculate_real initial s1) by lra. cbn [bind].
  pose proof (exp_pos (- s1 * time)) as Hp.
  rewrite !calculate_real; try lra.
  - do 2 f_equal.
    replace (- (s1 + s2) * time) with (- s1 * time + - s2 * time) by lra.
    rewrite exp_plus. ring.
  - apply Rmult_le_pos; lra.
Qed.

Lemma compositeDecay_sequential_witness :
  compositeDecay (Fin 100)
    (map Fin ([1 / 1000; 2 / 1000] ++ [5 / 10000])) (Fin 365)
  = (left <- compositeDecay (Fin 100) (map Fin [1 / 1000; 2 / 1000])
               (Fin 365) ;;
     compositeDecay left (map Fin [5 / 10000]) (Fin 365)).
Proof.
  apply compositeDecay_sequential; try lra;
    repeat (constructor; try lra).
Defined.




(** A batch over times that are all in range has one entry per time, in
    the order given, and each value is the entry's percentage of the
    initial amount. *)
Theorem batchCalculate_in_order (initial rate : R) (times : list R) :
  0 <= initial -> 0 <= rate -> Forall (fun t => 0 <= t) times ->
  exists entries,
    batchCalculate (Fin initial) (Fin rate) (map Fin times) = Ok entries /\
    map Batch.time entries = map Fin times /\
    Forall (fun e => Batch.value e
                     = amountAtPercent (Fin initial) (Batch.percent e))
           entries.
Proof.
  intros Hi Hr Ht. induction Ht as [|t times Hpos _ IH].
  - exists []. repeat split; constructor.
  - destruct IH as [entries [He [Hm Hv]]].
    eexists. cbn [batchCalculate map].
    rewrite calculate_real by assumption. cbn [bind]. rewrite He. cbn [bind].
    split; [reflexivity | ]. split.
    + cbn [map Batch.time]. rewrite Hm. reflexivity.
    + constructor; [ | exact Hv].
      cbn [Batch.value Batch.percent].
      unfold amountAtPercent, percentRemaining. cbn [neg mul exp div]. rdec.
      cbn [mul]. f_equal. field.
Qed.

Lemma batchCalculate_in_order_witness :
  exists entries,
    batchCalculate (Fin 100) (Fin (1386 / 10000)) (map Fin [0; 5; 10])
    = Ok entries /\
    map Batch.time entries = map Fin [0; 5; 10] /\
    Forall (fun e => Batch.value e
                     = amountAtPercent (Fin 100) (Batch.percent e))
           entries.
Proof.
  apply batchCalculate_in_order; try lra. repeat (constructor; try lra).
Defined.

(** X10.  One negative time among the rest fails the whole batch: no entries
    are returned, not even for the times before it. *)
Theorem batchCalculate_all_or_nothing (initial rate : R) (times : list R) :
  0 <= initial -> 0 <= rate -> Exists (fun t => t < 0) times ->
  batchCalculate (Fin initial) (Fin rate) (map Fin times)
  = Throw (InvalidArgument "Time cannot be negative").
Proof.
  intros Hi Hr He. induction times as [|t times IH]; [inversion He | ].
  cbn [batchCalculate map].
  destruct (Rlt_dec t 0) as [Hneg | Hpos].
  - unfold calculate. cbn [ltb]. rdec. reflexivity.
  - rewrite calculate_real by lra. cbn [bind].
    rewrite IH; [reflexivity | ].
    inversion He; subst; [contradiction | assumption].
Qed.

Lemma batchCalculate_all_or_nothing_witness :
  batchCalculate (Fin 100) (Fin (1386 / 10000)) (map Fin [0; 5; -1; 10])
  = Throw (InvalidArgument "Time cannot be negative").
Proof.
  apply batchCalculate_all_or_nothing; try lra.
  right. right. left. lra.
Defined.

End Combined.

(* ------------------------------------------------------------------ *)
(** ** Estimating a rate *)

Section Estimation.

Import ForgeCalculator Spec.

Lemma strictEq_neq (c d : num) : c <> d -> strictEq c d = false.
Proof.
  intro H. destruct c, d; cbn [strictEq]; try reflexivity;
    try (exfalso; apply H; reflexivity).
  apply Reqb_false. intro E. apply H. rewrite E. reflexivity.
Qed.

(** X11.  The interval is centred on the rate and, for a standard error that
    is not negative, contains it.  Only a confidence of exactly 0.95 gets
    the multiplier 1.96: every other confidence, a lower one included,
    gets 2.576, and so an interval that contains the one for 0.95. *)
Theorem rateConfidenceInterval_nested (rate se : R) (c : num) :
  0 <= se -> c <> Fin (95 / 100) ->
  let narrow := rateConfidenceInterval (Fin rate) (Fin se) (Fin (95 / 100)) in
  let wide := rateConfidenceInterval (Fin rate) (Fin se) c in
  exists lo hi lo' hi' : R,
    lower narrow = Fin lo /\ upper narrow = Fin hi /\
    lower wide = Fin lo' /\ upper wide = Fin hi' /\
    lo' <= lo <= rate /\ rate <= hi <= hi' /\
    lo + hi = 2 * rate /\ lo' + hi' = 2 * rate /\
    hi' - lo' = 2 * (2576 / 1000) * se.
Proof.
  intros Hse Hc. cbn zeta. unfold rateConfidenceInterval.
  rewrite (strictEq_neq c _ Hc). cbn [strictEq]. rdec.
  cbn [lower upper sub add mul neg].
  do 4 eexists. repeat split; try reflexivity; lra.
Qed.

Lemma rateConfidenceInterval_nested_witness :
  exists lo hi lo' hi' : R,
    lower (rateConfidenceInterval (Fin 1) (Fin (1 / 10)) (Fin (95 / 100)))
    = Fin lo /\
    upper (rateConfidenceInterval (Fin 1) (Fin (1 / 10)) (Fin (95 / 100)))
    = Fin hi /\
    lower (rateConfidenceInterval (Fin 1) (Fin (1 / 10)) (Fin (90 / 100)))
    = Fin lo' /\
    upper (rateConfidenceInterval (Fin 1) (Fin (1 / 10)) (Fin (90 / 100)))
    = Fin hi' /\
    lo' <= lo <= 1 /\ 1 <= hi <= hi' /\
    lo + hi = 2 * 1 /\ lo' + hi' = 2 * 1 /\
    hi' - lo' = 2 * (2576 / 1000) * (1 / 10).
Proof.
  apply (rateConfidenceInterval_nested 1 (1 / 10) (Fin (90 / 100))).
  - lra.
  - intro H. inversion H. lra.
Defined.



End Estimation.

(* ------------------------------------------------------------------ *)
(** ** Goodness of fit *)

Section GoodnessOfFit.

Import ForgeCalculator Spec.

Lemma fold_plus_shift {A : Type} (g : A -> R) (l : list A) :
  forall a, fold_left (fun acc x => acc + g x) l a = a + sumOver g l.
Proof.
  unfold sumOver. induction l as [|x l IH]; intro a; cbn [fold_left]; [lra | ].
  rewrite (IH (a + g x)), (IH (0 + g x)). lra.
Qed.

Lemma sumOver_cons {A : Type} (g : A -> R) (x : A) (l : list A) :
  sumOver g (x :: l) = g x + sumOver g l.
Proof.
  unfold sumOver at 1. cbn [fold_left]. rewrite fold_plus_shift. lra.
Qed.

Lemma sumOver_nil {A : Type} (g : A -> R) : sumOver g [] = 0.
Proof. reflexivity. Qed.

Lemma sumOver_nonneg {A : Type} (g : A -> R) (l : list A) :
  (forall x, 0 <= g x) -> 0 <= sumOver g l.
Proof.
  intro H. induction l as [|x l IH]; [rewrite sumOver_nil; lra | ].
  rewrite sumOver_cons. specialize (H x). lra.
Qed.

Lemma sumOver_pos {A : Type} (g : A -> R) (l : list A) (x : A) :
  (forall z, 0 <= g z) -> In x l -> 0 < g x -> 0 < sumOver g l.
Proof.
  intros H Hin Hx. induction l as [|z l IH]; [contradiction | ].
  rewrite sumOver_cons. pose proof (sumOver_nonneg g l H) as Hl.
  destruct Hin as [-> | Hin].
  - lra.
  - specialize (IH Hin). specialize (H z). lra.
Qed.

Lemma sumOver_ext {A : Type} (g h : A -> R) (l : list A) :
  (forall x, In x l -> g x = h x) -> sumOver g l = sumOver h l.
Proof.
  induction l as [|x l IH]; intro H; [reflexivity | ].
  rewrite !sumOver_cons, IH, (H x); auto using in_eq, in_cons.
Qed.

Lemma sumOver_zero {A : Type} (g : A -> R) (l : list A) :
  (forall x, In x l -> g x = 0) -> sumOver g l = 0.
Proof.
  induction l as [|x l IH]; intro H; [reflexivity | ].
  rewrite sumOver_cons, IH, (H x); auto using in_eq, in_cons. lra.
Qed.


Lemma sum_of_ordinates (points : list XY.t) (ys : list R) :
  ordinates points ys ->
  forall a,
    fold_left (fun sum point => add sum (XY.y point)) points (Fin a)
    = Fin (a + sumOver (fun y => y) ys).
Proof.
  unfold ordinates. revert ys.
  induction points as [|p points IH]; intros [|y ys] H a;
    try discriminate; cbn [fold_left].
  - rewrite sumOver_nil. f_equal. lra.
  - cbn [map] in H. inversion H as [[Hy Hrest]].
    rewrite Hy. cbn [add]. rewrite (IH ys Hrest), sumOver_cons.
    f_equal. lra.
Qed.

Lemma squaresLoop_real (m : R) :
  forall observed predicted ys ps,
    ordinates observed ys -> ordinates predicted ps ->
    List.length ys = List.length ps ->
    forall a b,
      squaresLoop (Fin m) observed predicted (Fin a) (Fin b)
      = (Fin (a + sumOver (sqdev m) ys),
         Fin (b + sumOver sqerr (combine ys ps))).
Proof.
  unfold ordinates.
  induction observed as [|o observed IH];
    intros predicted [|y ys] ps Ho Hp Hlen a b; try discriminate.
  - cbn [squaresLoop combine]. rewrite !sumOver_nil. do 2 f_equal; f_equal; lra.
  - destruct ps as [|p ps]; [discriminate | ].
    destruct predicted as [|q predicted]; [discriminate | ].
    cbn [map] in Ho, Hp. inversion Ho as [[Hy Hrest]].
    inversion Hp as [[Hq Hprest]].
    cbn [squaresLoop combine]. rewrite Hy, Hq.
    unfold pow2, sub. cbn [neg add mul].
    rewrite (IH predicted ys ps Hrest Hprest) by (cbn in Hlen; lia).
    rewrite !sumOver_cons. unfold sqdev, sqerr. cbn [fst snd].
    f_equal; f_equal; lra.
Qed.

Lemma ordinates_length (points : list XY.t) (ys : list R) :
  ordinates points ys -> List.length points = List.length ys.
Proof.
  unfold ordinates. intro H.
  rewrite <- (length_map XY.y points), H, length_map. reflexivity.
Qed.

(** What [calculateRSquared] computes on real ordinates. *)
Lemma calculateRSquared_real (observed predicted : list XY.t)
    (ys ps : list R) :
  ordinates observed ys -> ordinates predicted ps ->
  List.length ys = List.length ps -> ys <> [] ->
  let mean := sumOver (fun y => y) ys / INR (List.length ys) in
  calculateRSquared observed predicted
  = Ok (sub (Fin 1)
            (div (Fin (sumOver sqerr (combine ys ps)))
                 (Fin (sumOver (sqdev mean) ys)))).
Proof.
  intros Ho Hp Hlen Hne mean. unfold calculateRSquared.
  rewrite (ordinates_length _ _ Ho), (ordinates_length _ _ Hp), Hlen,
          Nat.eqb_refl.
  cbn [negb]. rewrite (sum_of_ordinates _ _ Ho).
  assert (Hn : 0 < INR (List.length ps)).
  { rewrite <- Hlen. apply lt_0_INR. destruct ys; [congruence | cbn; lia]. }
  cbn [div]. rdec.
  replace ((0 + sumOver (fun y => y) ys) / INR (List.length ps)) with mean
    by (unfold mean; rewrite Hlen; f_equal; lra).
  rewrite (squaresLoop_real mean _ _ _ _ Ho Hp Hlen).
  rewrite !Rplus_0_l. reflexivity.
Qed.

Lemma square_nonneg (x : R) : 0 <= x * x.
Proof. exact (Rle_0_sqr x). Qed.

Lemma square_pos (x : R) : x <> 0 -> 0 < x * x.
Proof. intro H. exact (Rsqr_pos_lt x H). Qed.

Lemma differing_ordinates_off_mean (ys : list R) (m : R) :
  (exists y1 y2, In y1 ys /\ In y2 ys /\ y1 <> y2) ->
  0 < sumOver (sqdev m) ys.
Proof.
  intros [y1 [y2 [H1 [H2 Hne]]]].
  assert (Hsq : forall z, 0 <= sqdev m z)
    by (intro z; unfold sqdev; apply square_nonneg).
  destruct (Req_dec_T y1 m) as [E | E].
  - apply (sumOver_pos _ _ y2 Hsq H2). unfold sqdev.
    apply square_pos. intro Z. apply Hne. lra.
  - apply (sumOver_pos _ _ y1 Hsq H1). unfold sqdev.
    apply square_pos. intro Z. apply E. lra.
Qed.

(** X13.  For observations that are not all equal, R squared is a number that
    is at most 1, and it is 1 when every prediction is the observation
    itself. *)
Theorem calculateRSquared_at_most_one
    (observed predicted : list XY.t) (ys ps : list R) :
  ordinates observed ys -> ordinates predicted ps ->
  List.length ys = List.length ps ->
  (exists y1 y2, In y1 ys /\ In y2 ys /\ y1 <> y2) ->
  exists r : R,
    calculateRSquared observed predicted = Ok (Fin r) /\
    r <= 1 /\
    (ps = ys -> r = 1).
Proof.
  intros Ho Hp Hlen Hd.
  assert (Hne : ys <> []).
  { destruct Hd as [y1 [_ [H1 _]]]. intro E. subst ys. contradiction. }
  rewrite (calculateRSquared_real _ _ _ _ Ho Hp Hlen Hne). cbn zeta.
  set (mean := sumOver (fun y => y) ys / INR (List.length ys)).
  pose proof (differing_ordinates_off_mean ys mean Hd) as HT.
  assert (HR : 0 <= sumOver sqerr (combine ys ps))
    by (apply sumOver_nonneg; intro q; unfold sqerr; apply square_nonneg).
  unfold sub. cbn [div]. rdec. cbn [neg add].
  eexists. split; [reflexivity | ]. split.
  - assert (0 <= sumOver sqerr (combine ys ps) / sumOver (sqdev mean) ys).
    { apply Rmult_le_pos; [exact HR | ].
      apply Rlt_le, Rinv_0_lt_compat. exact HT. }
    lra.
  - intro E. subst ps.
    rewrite sumOver_zero.
    + unfold Rdiv. rewrite Rmult_0_l. lra.
    + intros q Hq. unfold sqerr.
      assert (fst q = snd q).
      { clear - Hq. induction ys as [|y ys IH]; [contradiction | ].
        destruct Hq as [<- | Hq]; [reflexivity | auto]. }
      nra.
Qed.

Lemma calculateRSquared_at_most_one_witness :
  exists r : R,
    calculateRSquared
      [XY.mk (Fin 0) (Fin 1); XY.mk (Fin 1) (Fin 3)]
      [XY.mk (Fin 0) (Fin 1); XY.mk (Fin 1) (Fin 2)]
    = Ok (Fin r) /\
    r <= 1 /\ ([1; 2] = [1; 3] -> r = 1).
Proof.
  apply (calculateRSquared_at_most_one _ _ [1; 3] [1; 2]);
    try reflexivity.
  exists 1, 3. cbn [In]. repeat split; auto. lra.
Defined.



End GoodnessOfFit.

(* ------------------------------------------------------------------ *)
(** ** The linearization test *)

Section Linearization.

Import ForgeCalculator Spec.


Lemma sumOver_scal {A : Type} (c : R) (g : A -> R) (l : list A) :
  sumOver (fun x => c * g x) l = c * sumOver g l.
Proof.
  induction l as [|x l IH]; [rewrite !sumOver_nil; lra | ].
  rewrite !sumOver_cons, IH. lra.
Qed.











End Linearization.

(* ------------------------------------------------------------------ *)
(** ** The level over time *)

Section LevelOverTime.

Import CaffeineForge Spec.

(** The loop reads the volume of distribution and the rate constant of
    the tracker and nothing else. *)
Lemma levelLoop_same_config (f g : Forge) (now : Date) :
  volumeDistribution f = volumeDistribution g ->
  rateConstant (state f) = rateConstant (state g) ->
  forall events acc, levelLoop f now events acc = levelLoop g now events acc.
Proof.
  intros Hv Hk. induction events as [|e events IH]; intro acc;
    cbn [levelLoop]; [reflexivity | ].
  rewrite Hv, Hk.
  destruct (geb _ (Fin 0)); [ | apply IH].
  destruct (ForgeCalculator.calculate _ _ _); cbn [bind];
    [apply IH | reflexivity].
Qed.

Lemma levelLoop_app (f : Forge) (now : Date) (events1 events2 : list DoseEvent) :
  forall acc,
    levelLoop f now (events1 ++ events2) acc
    = (level <- levelLoop f now events1 acc ;; levelLoop f now events2 level).
Proof.
  induction events1 as [|e events1 IH]; intro acc; cbn [levelLoop app].
  - reflexivity.
  - destruct (geb _ (Fin 0)); [ | apply IH].
    destruct (ForgeCalculator.calculate _ _ _); cbn [bind];
      [apply IH | reflexivity].
Qed.



(** X18.  A dose logged at the very time the level is read adds its own
    initial concentration, the amount over the volume of distribution, to
    the level there was. *)
Theorem addDose_raises_level
    (f f1 : Forge) (event : DoseEvent) (now : Z) (amount v k : R)
    (src : string) (clock : Z) (before : num) :
  volumeDistribution f = Fin v -> 0 < v ->
  rateConstant (state f) = Fin k -> 0 <= k ->
  0 <= amount ->
  levelAt f (ADate (Some now)) = Ok before ->
  addDose f (Fin amount) (ADate (Some now)) src clock = Ok (event, f1) ->
  levelAt f1 (ADate (Some now)) = Ok (add before (Fin (amount / v))).
Proof.
  intros Hv Hvpos Hk Hkpos Ha Hb Hadd.
  unfold addDose in Hadd. inversion Hadd; subst; clear Hadd.
  unfold levelAt, getCurrentLevel in *.
  cbn [state setHistory caffeineHistory toDate] in *.
  rewrite levelLoop_app.
  rewrite (levelLoop_same_config _ f) by reflexivity.
  destruct (levelLoop f (Some now) (caffeineHistory (state f)) (Fin 0))
    as [l | e]; cbn [bind fst] in Hb; [ | discriminate].
  inversion Hb; subst; clear Hb. cbn [bind].
  cbn [levelLoop time dose volumeDistribution state rateConstant].
  rewrite hoursBetween_valid. unfold geb. cbn [leb]. rdec.
  change (rateConstant
            (setHistory (state f)
               (caffeineHistory (state f) ++
                [mkDoseEvent (Fin amount) (Some now) src clock])))
    with (rateConstant (state f)).
  rewrite Hv, Hk. cbn [div]. rdec.
  assert (0 <= amount / v).
  { apply Rmult_le_pos; [lra | ]. apply Rlt_le, Rinv_0_lt_compat; lra. }
  rewrite calculate_real by lra. cbn [bind fst].
  do 3 f_equal.
  replace (- k * ((IZR now - IZR now) / (1000 * 60 * 60))) with 0 by lra.
  rewrite exp_0. lra.
Qed.

Lemma addDose_raises_level_witness :
  let f := constructor emptyConfig in
  let event := mkDoseEvent (Fin 100) (Some 0%Z) "coffee" 0 in
  levelAt (mkForge (setHistory (state f) [event]) (volumeDistribution f))
          (ADate (Some 0%Z))
  = Ok (add (Fin 0) (Fin (100 / (70 * (6 / 10))))).
Proof.
  cbn zeta.
  apply (addDose_raises_level (constructor emptyConfig) _
           (mkDoseEvent (Fin 100) (Some 0%Z) "coffee" 0)
           0 100 (70 * (6 / 10)) (1386 / 10000) "coffee" 0 (Fin 0));
    try lra; reflexivity.
Defined.

(** The level of a log of well-formed events that have all occurred by
    the query time, as a real sum. *)
Lemma levelLoop_real (f : Forge) (v k : R) (t : Z) :
  volumeDistribution f = Fin v -> 0 < v ->
  rateConstant (state f) = Fin k -> 0 <= k ->
  forall events,
    Forall (fun e => exists amount ms,
                       wellFormed e amount ms /\ (ms <= t)%Z) events ->
    forall acc,
      levelLoop f (Some t) events (Fin acc)
      = Ok (Fin (acc + sumOver
                         (fun e => amountOf e / v
                                   * Rtrigo_def.exp (- k * hoursSince t e))
                         events)).
Proof.
  intros Hv Hvpos Hk Hkpos. induction 1 as [|e events He _ IH]; intro acc.
  - cbn [levelLoop]. rewrite sumOver_nil. do 2 f_equal. lra.
  - destruct He as [amount [ms [[Hd [Ha Ht]] Hms]]].
    cbn [levelLoop]. rewrite Ht, hoursBetween_valid, Hd, Hv, Hk.
    assert (Hh : 0 <= (IZR t - IZR ms) / (1000 * 60 * 60)).
    { apply IZR_le in Hms. apply Rmult_le_pos; [lra | ].
      apply Rlt_le, Rinv_0_lt_compat; lra. }
    unfold geb. cbn [leb]. rdec. cbn [div]. rdec.
    assert (0 <= amount / v).
    { apply Rmult_le_pos; [lra | ]. apply Rlt_le, Rinv_0_lt_compat; lra. }
    rewrite calculate_real by lra. cbn [bind add].
    rewrite IH, sumOver_cons. unfold amountOf, hoursSince, msOf.
    rewrite Hd, Ht. do 2 f_equal. lra.
Qed.

(** X19.  With no dose in between, the level only decays: if every logged event
    had occurred by [t1], the level at a later [t2] is what [calculate]
    leaves of the level at [t1] after the hours from [t1] to [t2]. *)
Theorem level_decays_between_doses
    (f : Forge) (v k : R) (t1 t2 : Z) :
  volumeDistribution f = Fin v -> 0 < v ->
  rateConstant (state f) = Fin k -> 0 <= k ->
  (t1 <= t2)%Z ->
  Forall (fun e => exists amount ms,
                     wellFormed e amount ms /\ (ms <= t1)%Z)
         (caffeineHistory (state f)) ->
  levelAt f (ADate (Some t2))
  = (level <- levelAt f (ADate (Some t1)) ;;
     ForgeCalculator.calculate level (Fin k)
       (hoursBetween (Some t2) (Some t1))).
Proof.
  intros Hv Hvpos Hk Hkpos Ht Hall.
  assert (Hall2 : Forall (fun e => exists amount ms,
                            wellFormed e amount ms /\ (ms <= t2)%Z)
                         (caffeineHistory (state f))).
  { eapply Forall_impl; [ | exact Hall].
    intros e [amount [ms [Hw Hms]]]. exists amount, ms. split; [exact Hw | lia]. }
  unfold levelAt, getCurrentLevel. cbn [toDate].
  rewrite (levelLoop_real f v k t1 Hv Hvpos Hk Hkpos _ Hall).
  rewrite (levelLoop_real f v k t2 Hv Hvpos Hk Hkpos _ Hall2).
  cbn [bind fst]. rewrite hoursBetween_valid.
  set (delta := (IZR t2 - IZR t1) / (1000 * 60 * 60)).
  assert (Hdelta : 0 <= delta).
  { unfold delta. apply IZR_le in Ht. apply Rmult_le_pos; [lra | ].
    apply Rlt_le, Rinv_0_lt_compat; lra. }
  assert (Hsum : 0 <= sumOver
                        (fun e => amountOf e / v
                                  * Rtrigo_def.exp (- k * hoursSince t1 e))
                        (caffeineHistory (state f))).
  { clear - Hall Hvpos. induction Hall as [|e events He _ IH].
    - rewrite sumOver_nil. lra.
    - rewrite sumOver_cons.
      destruct He as [amount [ms [[Hd [Ha _]] _]]].
      unfold amountOf at 1. rewrite Hd.
      pose proof (exp_pos (- k * hoursSince t1 e)).
      assert (0 <= amount / v).
      { apply Rmult_le_pos; [lra | ]. apply Rlt_le, Rinv_0_lt_compat; lra. }
      assert (0 <= amount / v * Rtrigo_def.exp (- k * hoursSince t1 e))
        by (apply Rmult_le_pos; lra).
      lra. }
  rewrite calculate_real by lra. do 2 f_equal.
  rewrite !Rplus_0_l.
  rewrite (sumOver_ext _
             (fun e => Rtrigo_def.exp (- k * delta)
                       * (amountOf e / v
                          * Rtrigo_def.exp (- k * hoursSince t1 e)))).
  - rewrite sumOver_scal. lra.
  - intros e _.
    replace (- k * hoursSince t2 e)
      with (- k * delta + - k * hoursSince t1 e)
      by (unfold hoursSince, delta; lra).
    rewrite exp_plus. lra.
Qed.

Lemma level_decays_between_doses_witness :
  let f := withHistory (constructor emptyConfig)
             [mkDoseEvent (Fin 100) (Some 0%Z) "coffee" 0] in
  levelAt f (ADate (Some 7200000%Z))
  = (level <- levelAt f (ADate (Some 3600000%Z)) ;;
     ForgeCalculator.calculate level (Fin (1386 / 10000))
       (hoursBetween (Some 7200000%Z) (Some 3600000%Z))).
Proof.
  cbn zeta.
  apply (level_decays_between_doses _ (70 * (6 / 10)) (1386 / 10000));
    try lra; try lia; try reflexivity.
  repeat constructor. exists 100, 0%Z.
  unfold wellFormed. cbn. repeat split; try lra; lia.
Defined.

(** X20.  One negative dose in the log, once its time has come, fails every
    reading of the level: the loop raises at that event if it has not
    raised before. *)
Theorem negative_dose_poisons_reads
    (f : Forge) (v : R) (now ms : Z) (amount : R) (e : DoseEvent) :
  volumeDistribution f = Fin v -> 0 < v ->
  In e (caffeineHistory (state f)) ->
  dose e = Fin amount -> amount < 0 ->
  time e = Some ms -> (ms <= now)%Z ->
  exists msg,
    getCurrentLevel f (ADate (Some now)) = Throw (InvalidArgument msg).
Proof.
  intros Hv Hvpos Hin Hd Ha Ht Hms.
  unfold getCurrentLevel. cbn [toDate].
  assert (G : forall events acc,
            In e events ->
            exists msg,
              levelLoop f (Some now) events acc
              = Throw (InvalidArgument msg)).
  { induction events as [|x events IH]; intros acc Hx; [contradiction | ].
    cbn [levelLoop].
    destruct Hx as [-> | Hx].
    - rewrite Ht, hoursBetween_valid, Hd, Hv.
      assert (Hh : 0 <= (IZR now - IZR ms) / (1000 * 60 * 60)).
      { apply IZR_le in Hms. apply Rmult_le_pos; [lra | ].
        apply Rlt_le, Rinv_0_lt_compat; lra. }
      unfold geb. cbn [leb]. rdec. cbn [div]. rdec.
      assert (amount / v < 0).
      { unfold Rdiv. rewrite <- (Rmult_0_l (/ v)).
        apply Rmult_lt_compat_r; [apply Rinv_0_lt_compat; lra | lra]. }
      unfold ForgeCalculator.calculate. cbn [ltb]. rdec. cbn [bind]. eauto.
    - destruct (geb _ (Fin 0)); [ | apply IH; exact Hx].
      destruct (ForgeCalculator.calculate _ _ _) as [r | err] eqn:E;
        cbn [bind]; [apply IH; exact Hx | ].
      destruct (calculate_error_kind _ _ _ _ E) as [msg ->].
      eauto. }
  destruct (G (caffeineHistory (state f)) (Fin 0) Hin) as [msg Hmsg].
  rewrite Hmsg. cbn [bind]. eauto.
Qed.

Lemma negative_dose_poisons_reads_witness :
  exists msg,
    getCurrentLevel
      (withHistory (constructor emptyConfig)
         [mkDoseEvent (Fin 100) (Some 0%Z) "coffee" 0;
          mkDoseEvent (Fin (-5)) (Some 0%Z) "coffee" 0])
      (ADate (Some 0%Z))
    = Throw (InvalidArgument msg).
Proof.
  apply (negative_dose_poisons_reads _ (70 * (6 / 10)) 0 0 (-5)
           (mkDoseEvent (Fin (-5)) (Some 0%Z) "coffee" 0));
    try lra; try lia; try reflexivity.
  cbn. auto.
Defined.

End LevelOverTime.

(* ------------------------------------------------------------------ *)
(** ** Waiting for sleep *)

Section Waiting.

Import CaffeineForge Spec.

Lemma getCurrentLevel_keeps_config (f f' : Forge) (t : timeArg) (level : num) :
  getCurrentLevel f t = Ok (level, f') ->
  rateConstant (state f') = rateConstant (state f) /\
  volumeDistribution f' = volumeDistribution f.
Proof.
  unfold getCurrentLevel. intro H.
  destruct (levelLoop _ _ _ _); cbn [bind] in H; [ | discriminate].
  inversion H; subst. split; reflexivity.
Qed.

(** X21.  Above a positive threshold the answer is the time after which the
    present level has decayed to the threshold exactly: decaying the level
    for the hours returned gives the threshold. *)
Theorem getTimeUntilSleep_reaches_threshold
    (f f' : Forge) (fromTime : Date) (level threshold k : R) :
  getCurrentLevel f (ADate fromTime) = Ok (Fin level, f') ->
  rateConstant (state f) = Fin k -> 0 < k ->
  0 < threshold -> threshold < level ->
  exists (info : SleepInfo) (h : R),
    getTimeUntilSleep f (Some (Fin threshold)) fromTime = Ok (info, f') /\
    canSleepNow info = false /\
    sleep_currentLevel info = Fin level /\
    hours info = Fin h /\ 0 < h /\
    ForgeCalculator.calculate (Fin level) (Fin k) (Fin h) = Ok (Fin threshold).
Proof.
  intros Hl Hk Hkpos Hth Hlt.
  destruct (getCurrentLevel_keeps_config _ _ _ _ Hl) as [Hk' _].
  unfold getTimeUntilSleep, thresholdOrDefault. cbn [truthy]. rdec.
  cbn [negb]. rewrite Hl. cbn [bind leb]. rdec.
  rewrite Hk', Hk. rewrite timeToReach_real by lra. cbn [bind].
  do 2 eexists. split; [reflexivity | ].
  cbn [canSleepNow sleep_currentLevel hours].
  assert (Hq : 0 < level / threshold) by (apply Rdiv_lt_0_compat; lra).
  assert (Hln : 0 < ln (level / threshold)).
  { rewrite <- ln_1. apply ln_increasing; [lra | ].
    apply Rmult_lt_reg_r with (r := threshold); [exact Hth | ].
    unfold Rdiv. rewrite Rmult_assoc, Rinv_l by lra. lra. }
  assert (Hh : 0 < ln (level / threshold) / k)
    by (apply Rdiv_lt_0_compat; lra).
  repeat split; try reflexivity; try exact Hh.
  rewrite calculate_real by lra. do 2 f_equal.
  replace (- k * (ln (level / threshold) / k))
    with (- ln (level / threshold)) by (field; lra).
  rewrite exp_neg_ln by exact Hq. field. lra.
Qed.

(** X22.  A negative threshold is truthy and is kept.  No level ever decays
    below it: unless the level is already at or below it, the wait is
    +Infinity and the time of sleep is an Invalid Date. *)
Theorem getTimeUntilSleep_negative_threshold
    (f f' : Forge) (fromTime : Date) (level : num) (threshold : R) :
  getCurrentLevel f (ADate fromTime) = Ok (level, f') ->
  threshold < 0 -> ~ Le level (Fin threshold) ->
  getTimeUntilSleep f (Some (Fin threshold)) fromTime
  = Ok (mkSleepInfo PInf None false level, f').
Proof.
  intros Hl Hth Hlevel.
  unfold getTimeUntilSleep, thresholdOrDefault. cbn [truthy]. rdec.
  cbn [negb]. rewrite Hl. cbn [bind].
  apply leb_nLe in Hlevel. rewrite Hlevel.
  unfold ForgeCalculator.timeToReach, geb. rewrite Hlevel.
  cbn [leb]. rdec. cbn [bind].
  assert (Hinf : mul (mul (mul PInf (Fin 60)) (Fin 60)) (Fin 1000) = PInf).
  { do 3 (cbn [mul]; unfold scaleInf; rdec; cbn [Bool.eqb]). reflexivity. }
  rewrite Hinf. destruct fromTime; reflexivity.
Qed.

Lemma one_coffee_level :
  getCurrentLevel
    (withHistory (constructor emptyConfig)
       [mkDoseEvent (Fin 100) (Some 0%Z) "coffee" 0])
    (ADate (Some 0%Z))
  = Ok (Fin (100 / (70 * (6 / 10))),
        mkForge (setCurrentLevel
                   (state (withHistory (constructor emptyConfig)
                             [mkDoseEvent (Fin 100) (Some 0%Z) "coffee" 0]))
                   (Fin (100 / (70 * (6 / 10)))))
                (Fin (70 * (6 / 10)))).
Proof.
  unfold getCurrentLevel, withHistory. rewrite default_forge.
  cbn [toDate state caffeineHistory setHistory levelLoop time dose
       volumeDistribution bodyWeight metabolismRate currentLevel
       rateConstant halfLife].
  rewrite hoursBetween_valid. unfold geb. cbn [leb]. rdec.
  unfold RATE_TYPICAL. cbn [div]. rdec.
  rewrite calculate_real by lra. cbn [bind add].
  replace (0 + 100 / (70 * (6 / 10))
               * Rtrigo_def.exp
                   (- (1386 / 10000) * ((0 - 0) / (1000 * 60 * 60))))
    with (100 / (70 * (6 / 10))).
  - reflexivity.
  - replace (- (1386 / 10000) * ((0 - 0) / (1000 * 60 * 60))) with 0 by lra.
    rewrite exp_0. lra.
Qed.

Lemma getTimeUntilSleep_reaches_threshold_witness :
  exists (info : SleepInfo) (h : R),
    getTimeUntilSleep
      (withHistory (constructor emptyConfig)
         [mkDoseEvent (Fin 100) (Some 0%Z) "coffee" 0])
      (Some (Fin 1)) (Some 0%Z)
    = Ok (info,
          mkForge (setCurrentLevel
                     (state (withHistory (constructor emptyConfig)
                               [mkDoseEvent (Fin 100) (Some 0%Z) "coffee" 0]))
                     (Fin (100 / (70 * (6 / 10)))))
                  (Fin (70 * (6 / 10)))) /\
    canSleepNow info = false /\
    sleep_currentLevel info = Fin (100 / (70 * (6 / 10))) /\
    hours info = Fin h /\ 0 < h /\
    ForgeCalculator.calculate (Fin (100 / (70 * (6 / 10))))
      (Fin (1386 / 10000)) (Fin h) = Ok (Fin 1).
Proof.
  apply (getTimeUntilSleep_reaches_threshold _ _ (Some 0%Z)
           (100 / (70 * (6 / 10))) 1 (1386 / 10000));
    try lra; try reflexivity.
  exact one_coffee_level.
Defined.

Lemma getTimeUntilSleep_negative_threshold_witness :
  getTimeUntilSleep
    (withHistory (constructor emptyConfig)
       [mkDoseEvent (Fin 100) (Some 0%Z) "coffee" 0])
    (Some (Fin (-1))) (Some 0%Z)
  = Ok (mkSleepInfo PInf None false (Fin (100 / (70 * (6 / 10)))),
        mkForge (setCurrentLevel
                   (state (withHistory (constructor emptyConfig)
                             [mkDoseEvent (Fin 100) (Some 0%Z) "coffee" 0]))
                   (Fin (100 / (70 * (6 / 10)))))
                (Fin (70 * (6 / 10)))).
Proof.
  apply (getTimeUntilSleep_negative_threshold _ _ (Some 0%Z)).
  - exact one_coffee_level.
  - lra.
  - intro H. inversion H; subst. lra.
Defined.

End Waiting.

(* ------------------------------------------------------------------ *)
(** ** Today's total *)

Section Today.

Import CaffeineForge Spec.

Lemma geb_midnight (today : Z) (e : DoseEvent) :
  geb (getTime (time e)) (Fin (IZR today)) = sinceMidnight today e.
Proof.
  unfold geb, sinceMidnight. destruct (time e) as [ms|]; [ | reflexivity].
  cbn [getTime leb]. destruct (Z.leb_spec today ms) as [H | H].
  - apply Rleb_true. apply IZR_le. exact H.
  - apply Rleb_false. apply IZR_lt. exact H.
Qed.

Lemma assocB_number (b : list (string * BreakdownValue)) (key : string)
    (v : BreakdownValue) :
  allNumbers b -> assocB key b = Some v -> exists x, v = BNumber (Fin x).
Proof.
  induction 1 as [|[k w] b [x Hx] _ IH]; cbn [assocB]; [discriminate | ].
  destruct (String.eqb key k); [ | exact IH].
  intro H. inversion H; subst. cbn [snd] in Hx. eauto.
Qed.

Lemma bumped_number (b : list (string * BreakdownValue)) (key : string)
    (d : R) :
  allNumbers b ->
  existsb (String.eqb key) ObjectPrototype = false ->
  exists x, bumped b key (Fin d) = BNumber (Fin x) /\
            x = storedUnder key b + d.
Proof.
  intros Hb Hk. unfold bumped, storedUnder.
  destruct (assocB key b) as [v|] eqn:E.
  - destruct (assocB_number b key v Hb E) as [c ->].
    cbn [truthy]. destruct (Req_dec_T c 0) as [Hc | Hc].
    + rewrite (proj2 (Reqb_true c 0) Hc). cbn [negb add].
      eexists. split; [reflexivity | lra].
    + rewrite (proj2 (Reqb_false c 0) Hc). cbn [negb add].
      eexists. split; reflexivity.
  - rewrite Hk. cbn [add]. eexists. split; reflexivity.
Qed.

Lemma storeB_sum (b : list (string * BreakdownValue)) (key : string) (x : R) :
  allNumbers b ->
  allNumbers (storeB key (BNumber (Fin x)) b) /\
  breakdownSum (storeB key (BNumber (Fin x)) b)
  = breakdownSum b - storedUnder key b + x.
Proof.
  unfold breakdownSum, storedUnder.
  induction 1 as [|[k w] b [c Hc] Hb IH]; cbn [storeB assocB].
  - split; [repeat constructor; cbn; eauto | ].
    rewrite sumOver_cons, sumOver_nil. unfold entryAmount. cbn [snd]. lra.
  - cbn [snd] in Hc. subst w. destruct (String.eqb key k).
    + split; [constructor; [cbn; eauto | exact Hb] | ].
      rewrite !sumOver_cons. unfold entryAmount at 1 3. cbn [snd]. lra.
    + destruct IH as [IH1 IH2].
      split; [constructor; [cbn; eauto | exact IH1] | ].
      rewrite !sumOver_cons, IH2. lra.
Qed.

Lemma not_inherited_not_proto (key : string) :
  existsb (String.eqb key) ObjectPrototype = false ->
  String.eqb key "__proto__" = false.
Proof.
  unfold ObjectPrototype. cbn [existsb]. intro H.
  repeat (apply Bool.orb_false_elim in H; destruct H as [? H]).
  assumption.
Qed.

Lemma todayLoop_sums (today : Z) :
  forall events,
    Forall (fun e => (exists d, dose e = Fin d) /\
                     existsb (String.eqb (source e)) ObjectPrototype = false)
           events ->
    forall (t : R) (b : list (string * BreakdownValue)),
      allNumbers b ->
      exists b',
        todayLoop today events (Fin t) b
        = (Fin (t + sumOver amountOf (filter (sinceMidnight today) events)),
           b') /\
        allNumbers b' /\
        breakdownSum b'
        = breakdownSum b
          + sumOver amountOf (filter (sinceMidnight today) events).
Proof.
  induction 1 as [|e events [[d Hd] Hsrc] _ IH]; intros t b Hb.
  - exists b. cbn [todayLoop filter]. rewrite sumOver_nil.
    split; [do 2 f_equal; lra | ]. split; [exact Hb | lra].
  - cbn [todayLoop filter]. rewrite geb_midnight.
    destruct (sinceMidnight today e).
    + rewrite Hd. cbn [add].
      destruct (bumped_number b (source e) d Hb Hsrc) as [x [Hx Hval]].
      rewrite Hx. unfold assignB.
      rewrite (not_inherited_not_proto _ Hsrc).
      destruct (storeB_sum b (source e) x Hb) as [Hb1 Hsum1].
      destruct (IH (t + d) _ Hb1) as [b' [Hloop [Hb' Hsum']]].
      assert (Ha : amountOf e = d)
        by (unfold amountOf; rewrite Hd; reflexivity).
      exists b'. rewrite Hloop, sumOver_cons, Ha.
      split; [do 2 f_equal; lra | ]. split; [exact Hb' | ].
      rewrite Hsum', Hsum1, Hval. lra.
    + apply IH. exact Hb.
Qed.

(** X23.  For a log of finite amounts under source names that no object
    inherits, the total is the sum of the amounts of all events dated at
    or after midnight, however far ahead, and the breakdown by source
    splits that same total: its entries are numbers that add up to it.
    The total is never both safe and excessive. *)
Theorem getTodayTotal_breakdown_adds_up (f : Forge) (today : Z) :
  Forall (fun e => (exists d, dose e = Fin d) /\
                   existsb (String.eqb (source e)) ObjectPrototype = false)
         (caffeineHistory (state f)) ->
  let today_s :=
    sumOver amountOf
      (filter (sinceMidnight today) (caffeineHistory (state f))) in
  let r := getTodayTotal f today in
  total r = Fin today_s /\
  allNumbers (breakdown r) /\
  breakdownSum (breakdown r) = today_s /\
  safe r && excessive r = false.
Proof.
  intro Hall. cbn zeta. unfold getTodayTotal.
  destruct (todayLoop_sums today _ Hall 0 [] (Forall_nil _))
    as [b' [Hloop [Hb' Hsum]]].
  rewrite Hloop. cbn [total breakdown safe excessive].
  rewrite Rplus_0_l.
  split; [reflexivity | ]. split; [exact Hb' | ]. split.
  - rewrite Hsum. unfold breakdownSum. rewrite sumOver_nil. lra.
  - unfold gtb. cbn [ltb].
    destruct (Rlt_dec
                (sumOver amountOf
                   (filter (sinceMidnight today) (caffeineHistory (state f))))
                400) as [H | H].
    + replace (Rltb 600 _) with false
        by (symmetry; apply Rltb_false; lra).
      apply Bool.andb_false_r.
    + replace (Rltb _ 400) with false
        by (symmetry; apply Rltb_false; lra).
      reflexivity.
Qed.

Lemma getTodayTotal_breakdown_adds_up_witness :
  let f := withHistory (constructor emptyConfig)
             [mkDoseEvent (Fin 100) (Some (-5)%Z) "coffee" 0;
              mkDoseEvent (Fin 95) (Some 10%Z) "coffee" 0;
              mkDoseEvent (Fin 64) (Some 20%Z) "espresso" 0] in
  let today_s :=
    sumOver amountOf
      (filter (sinceMidnight 0) (caffeineHistory (state f))) in
  let r := getTodayTotal f 0 in
  total r = Fin today_s /\
  allNumbers (breakdown r) /\
  breakdownSum (breakdown r) = today_s /\
  safe r && excessive r = false.
Proof.
  apply getTodayTotal_breakdown_adds_up.
  cbn [withHistory state setHistory caffeineHistory].
  repeat constructor; cbn [dose]; eauto.
Defined.

End Today.

(* ------------------------------------------------------------------ *)
(** ** Curves and bands of the tracker *)

Section Bands.

Import CaffeineForge Spec.

Lemma decayCurveLoop_real (f : Forge) (v k level dt : R) :
  volumeDistribution f = Fin v -> rateConstant (state f) = Fin k ->
  0 <= level -> 0 <= k -> 0 <= dt ->
  forall todo i curve,
    decayCurveLoop f (Fin level) (Fin dt) i todo curve
    = Ok (curve ++ map (fun j => relabel (Fin v) (samplePoint level k dt j))
                       (seq i todo)).
Proof.
  intros Hv Hk Hl Hkpos Hdt. induction todo as [|todo IH]; intros i curve.
  - cbn [decayCurveLoop seq map]. rewrite app_nil_r. reflexivity.
  - cbn [decayCurveLoop seq map]. rewrite Hk, Hv. cbn [mul].
    assert (0 <= INR i * dt)
      by (apply Rmult_le_pos; [apply pos_INR | exact Hdt]).
    rewrite calculate_real by lra. cbn [bind].
    rewrite IH, <- app_assoc. reflexivity.
Qed.

(** X24.  The tracker's decay curve for a dose is the calculator's curve for
    the dose's initial concentration, point for point, each point
    labelled with the band of the amount left in the body (the level
    times the volume of distribution), not of the level itself.  A dose
    of 0 is replaced by the default dose. *)
Theorem generateDecayCurve_is_generateCurve_relabelled
    (f : Forge) (initialValue : option num)
    (v k amount duration : R) (steps : nat) :
  volumeDistribution f = Fin v -> 0 < v ->
  rateConstant (state f) = Fin k -> 0 < k ->
  0 < amount -> 0 < duration -> (1 <= steps)%nat ->
  (generateDecayCurve f initialValue (Some (Fin amount)) (Fin duration) steps
   = (data <- ForgeCalculator.generateCurve (Fin (amount / v)) (Fin k)
                (Fin duration) steps ;;
      Ok (map (relabel (Fin v)) data)))
  /\
  generateDecayCurve f initialValue (Some (Fin 0)) (Fin duration) steps
  = generateDecayCurve f initialValue None (Fin duration) steps.
Proof.
  intros Hv Hvpos Hk Hkpos Ha Hd Hs. split;
    [ | unfold generateDecayCurve, orDefault; cbn [truthy]; rdec;
        reflexivity].
  assert (Hn : 0 < INR steps) by (apply lt_0_INR; lia).
  assert (Hdt : 0 < duration / INR steps) by (apply Rdiv_lt_0_compat; lra).
  assert (Hl : 0 < amount / v) by (apply Rdiv_lt_0_compat; lra).
  unfold generateDecayCurve, ForgeCalculator.generateCurve, orDefault.
  cbn [truthy]. rdec. cbn [negb]. rewrite Hv. cbn [div]. rdec.
  rewrite (decayCurveLoop_real f v k) by (assumption || lra).
  rewrite curveLoop_real by lra. cbn [bind app].
  rewrite map_map. reflexivity.
Qed.

Lemma generateDecayCurve_is_generateCurve_relabelled_witness :
  generateDecayCurve (constructor emptyConfig) None (Some (Fin 100))
    (Fin 24) 100
  = (data <- ForgeCalculator.generateCurve (Fin (100 / (70 * (6 / 10))))
               (Fin (1386 / 10000)) (Fin 24) 100 ;;
     Ok (map (relabel (Fin (70 * (6 / 10)))) data)).
Proof.
  apply (generateDecayCurve_is_generateCurve_relabelled
           (constructor emptyConfig) None (70 * (6 / 10)) (1386 / 10000)
           100 24 100);
    try lra; try lia; reflexivity.
Defined.




End Bands.

(* ------------------------------------------------------------------ *)
(** ** Sources, schedules and the empty log *)

Section Remaining.

Import CaffeineForge Spec.

(** For a name that no object inherits, [addBySource] does what its
    table says: a registered source logs the unit amount times the
    servings, exactly as [addDose] would, and any other name is rejected
    with UnknownSource. *)
Theorem addBySource_outside_prototype
    (f : Forge) (name : string) (servings : num) (t : timeArg) (clock : Z) :
  existsb (String.eqb name) ObjectPrototype = false ->
  match assoc name SOURCES with
  | Some unit =>
      addBySource f name servings t clock
      = addDose f (mul unit servings) t name clock
  | None =>
      addBySource f name servings t clock
      = Throw (UnknownSource ("Unknown caffeine source: " ++ name))
  end.
Proof.
  intro H. destruct (assoc name SOURCES) as [unit|] eqn:E.
  - apply addBySource_registered. exact E.
  - apply addBySource_unknown; assumption.
Qed.

Lemma addBySource_outside_prototype_witness :
  addBySource (constructor emptyConfig) "espresso" (Fin 2)
    (ADate (Some 0%Z)) 0
  = addDose (constructor emptyConfig) (mul (Fin 64) (Fin 2))
      (ADate (Some 0%Z)) "espresso" 0
  /\
  addBySource (constructor emptyConfig) "invalid_source" (Fin 1)
    (ADate (Some 0%Z)) 0
  = Throw (UnknownSource "Unknown caffeine source: invalid_source").
Proof.
  split.
  - apply (addBySource_outside_prototype (constructor emptyConfig)
             "espresso" (Fin 2) (ADate (Some 0%Z)) 0).
    reflexivity.
  - apply (addBySource_outside_prototype (constructor emptyConfig)
             "invalid_source" (Fin 1) (ADate (Some 0%Z)) 0).
    reflexivity.
Defined.







(** A rate of zero, which [calculate] accepts, fails the curve. *)
Lemma generateCurve_nonpositive_rate_witness :
  exists msg,
    ForgeCalculator.generateCurve (Fin 100) (Fin 0) (Fin 24) 100
    = Throw (InvalidArgument msg).
Proof.
  apply generateCurve_nonpositive_rate. constructor. lra.
Defined.

(** A heavier tracker takes over what a default tracker exported. *)
Lemma import_of_export_witness :
  let f := constructor emptyConfig in
  let g := constructor (mkConfig (Some (Fin 80)) (Some "fast"%string)
                          None None None None) in
  let g' := importState g (exportState f 0) in
  bodyWeight (state g') = bodyWeight (state f) /\
  metabolismRate (state g') = metabolismRate (state f) /\
  caffeineHistory (state g') = caffeineHistory (state f) /\
  currentLevel (state g') = currentLevel (state f) /\
  rateConstant (state g') = rateConstant (state f) /\
  volumeDistribution g' = volumeDistribution f.
Proof.
  apply import_of_export. apply constructor_consistent.
Defined.

(** X30.  Clearing the history leaves the configuration alone and makes every
    reading the one of an empty log, whatever the configuration is: the
    level is 0 at any time, today's total is 0 and safe, sleep is possible
    at once and the state is the baseline.  None of the readings fails. *)
Theorem clearHistory_resets_readings
    (f : Forge) (t : timeArg) (fromTime : Date) (today : Z) :
  let g := clearHistory f in
  caffeineHistory (state g) = [] /\
  currentLevel (state g) = Fin 0 /\
  bodyWeight (state g) = bodyWeight (state f) /\
  rateConstant (state g) = rateConstant (state f) /\
  volumeDistribution g = volumeDistribution f /\
  getCurrentLevel g t = Ok (Fin 0, g) /\
  getTodayTotal g today = mkTodayTotal (Fin 0) [] true false /\
  getTimeUntilSleep g None fromTime
  = Ok (mkSleepInfo (Fin 0) fromTime true (Fin 0), g) /\
  exists ps,
    getPhysiologicalState g t = Ok (ps, g) /\
    level ps = Fin 0 /\ stateLabel ps = "baseline"%string.
Proof.
  cbn zeta.
  assert (Hl : forall u, getCurrentLevel (clearHistory f) u
                         = Ok (Fin 0, clearHistory f)) by reflexivity.
  repeat split; try reflexivity.
  - unfold getTodayTotal. cbn [clearHistory state setCurrentLevel setHistory
      caffeineHistory todayLoop]. unfold gtb. cbn [ltb]. rdec. reflexivity.
  - unfold getTimeUntilSleep. rewrite Hl. cbn [bind thresholdOrDefault].
    unfold THRESHOLD_SLEEP. cbn [leb]. rdec. reflexivity.
  - unfold getPhysiologicalState. rewrite Hl. cbn [bind].
    unfold geb, THRESHOLD_JITTERY, THRESHOLD_ALERT, THRESHOLD_SLEEP,
      THRESHOLD_BASELINE. cbn [leb]. rdec.
    eexists. repeat split; reflexivity.
Qed.

End Remaining.
